(** * RegFox API client (regfox.py): a shallow embedding and its contract

    The Python class [RegFoxAPI] is a thin client over one REST API.  Every
    method builds one call of [requests.request] and hands back the body
    parsed by [json.loads].  The embedding keeps what the Python code keeps:

    - Python values as the inductive [pyval];
    - the class-level dictionaries ([endpoints], [headers]) as finite maps,
      [headers] living in the store because [__load_api] mutates it in place;
    - attribute lookup through the instance first and the class second, so
      that [self.last_request = r] creates an attribute of the instance;
    - exceptions and state threaded by a small state-and-exception monad;
    - the outside world as part of the store (the files, readable or not,
      and stderr) or of the environment (the HTTP library and the upstream
      service, the JSON parser and the exceptions it raises, the digit
      limit of the interpreter). *)

From Stdlib Require Import ZArith Ascii String List DecimalString.
From Stdlib Require DecimalPos DecimalZ.
From stdpp Require Import gmap strings list fin_maps.

(** ** Python values *)

(** The values that flow through the client: what [json.load] produces, what
    callers pass as keyword arguments, and the payload dictionaries.  A float
    is named by its [repr] (which determines it); the client never computes
    on one.  A [dict] keeps its items in insertion order. *)
#[warnings="-register-all"]
Inductive pyval : Type :=
  | PNone
  | PBool (b : bool)
  | PInt (n : Z)
  | PFloat (repr : string)
  | PStr (s : string)
  | PList (items : list pyval)
  | PDict (items : list (string * pyval)).

(** [type(v)] for the values above. *)
Inductive pytype : Type :=
  TNoneType | TBool | TInt | TFloat | TStr | TList | TDict.

Definition type_of (v : pyval) : pytype :=
  match v with
  | PNone => TNoneType
  | PBool _ => TBool
  | PInt _ => TInt
  | PFloat _ => TFloat
  | PStr _ => TStr
  | PList _ => TList
  | PDict _ => TDict
  end.

(** [type(v) is int]: true of an [int] only, and not of a [bool]. *)
Definition type_is_int (v : pyval) : bool :=
  match type_of v with TInt => true | _ => false end.

(** Item lookup in a [dict] value. *)
Fixpoint dict_items_get (k : string) (items : list (string * pyval)) : option pyval :=
  match items with
  | [] => None
  | (k', v) :: rest => if String.eqb k k' then Some v else dict_items_get k rest
  end.

(** ** Exceptions *)

(** The exceptions the code can raise.  None is defined by regfox.py itself:
    they come from [open] and from reading the file, from [json], from
    subscripting, from argument binding, from formatting a value into a
    string, from [assert] and from the [requests] library, whose exception
    is named by the transport. *)
Inductive pyexn : Type :=
  | FileNotFoundError (path : string)
  | PermissionError
  | IsADirectoryError
  | OSError
  | UnicodeDecodeError
  | JSONDecodeError
  | RecursionError
  | ValueError
  | KeyError (key : string)
  | TypeError
  | AssertionError
  | RequestsException (cls : string).

(** [type(e).__name__]. *)
Definition class_name (e : pyexn) : string :=
  match e with
  | FileNotFoundError _ => "FileNotFoundError"
  | PermissionError => "PermissionError"
  | IsADirectoryError => "IsADirectoryError"
  | OSError => "OSError"
  | UnicodeDecodeError => "UnicodeDecodeError"
  | JSONDecodeError => "JSONDecodeError"
  | RecursionError => "RecursionError"
  | ValueError => "ValueError"
  | KeyError _ => "KeyError"
  | TypeError => "TypeError"
  | AssertionError => "AssertionError"
  | RequestsException cls => cls
  end.

(** Why a file that exists cannot be read as text: [open] fails with an
    [OSError], or the bytes of the file do not decode. *)
Inductive read_failure : Type :=
  | NoPermission
  | IsDirectory
  | OtherOSError
  | NotDecodable.

Definition read_exception (f : read_failure) : pyexn :=
  match f with
  | NoPermission => PermissionError
  | IsDirectory => IsADirectoryError
  | OtherOSError => OSError
  | NotDecodable => UnicodeDecodeError
  end.

(** Why [json.loads] returns nothing for a text: the text is not JSON, it
    is nested beyond the recursion limit of the interpreter, or it holds
    an integer literal with more digits than the interpreter converts. *)
Inductive json_failure : Type :=
  | NotJSON
  | NestedTooDeep
  | IntegerTooLong.

Definition json_exception (f : json_failure) : pyexn :=
  match f with
  | NotJSON => JSONDecodeError
  | NestedTooDeep => RecursionError
  | IntegerTooLong => ValueError
  end.

(** ** Requests and responses *)

(** The arguments of one call of
    [requests.request(method, url, headers=, json=, params=)]. *)
Record request : Type := Request {
  req_method : string;
  req_url : string;
  req_headers : gmap string pyval;
  req_json : pyval;
  req_params : gmap string pyval
}.

(** A [requests.models.Response], as far as the client reads it. *)
Record response : Type := Response {
  status_code : Z;
  text : string
}.

(** What [requests.request] does with a call: it returns a response or
    raises. *)
Inductive reply : Type :=
  | Answered (r : response)
  | Failed (e : pyexn).

(** ** Class attributes that are never rebound *)

Definition url_base : string := "https://api.webconnex.com/v2/public".

Definition endpoints : gmap string string :=
  <["ping" := "/ping"]>
  (<["search_orders" := "/search/orders"]>
  (<["search_registrants" := "/search/registrants"]>
  (<["registrant_checkin" := "/registrant/check-in"]>
  (<["registrant_checkout" := "/registrant/check-out"]>
  (<["search_transactions" := "/search/transactions"]>
  (<["search_customers" := "/search/customers"]>
  (<["list_global_coupons" := "/coupons/global"]>
  (<["list_form_coupons" := "/coupons/forms"]>
  (<["coupons" := "/coupons"]>
  (<["forms" := "/forms"]> ∅)))))))))).

Definition default_api_path : string := "config.json".

(** The class-level values of the two debugging attributes. *)
Definition class_last_request : option response := None.
Definition class_last_request_json : pyval := PDict [].

(** The initial contents of the class-level [headers] dictionary. *)
Definition initial_headers : gmap string pyval := {["apiKey" := PStr ""]}.


(** ** The store *)

(** What a run of the client can be observed to do: write a line on
    [sys.stderr], or call [requests.request]. *)
Inductive event : Type :=
  | EvStderr (line : string)
  | EvRequest (rq : request).

Definition requests_of (evs : list event) : list request :=
  omap (fun ev => match ev with EvRequest rq => Some rq | EvStderr _ => None end) evs.

Definition stderr_of (evs : list event) : list string :=
  omap (fun ev => match ev with EvStderr l => Some l | EvRequest _ => None end) evs.

(** ** The environment *)

(** What the client runs against and does not define: the states of the
    upstream service; [requests.request] in front of it, which answers or
    raises and moves the service on; [json.loads] (and [json.load] on the
    text of a file), [None] when it raises, and then [why_json_fails] tells
    which exception; the most digits an [int] may have when it is turned
    into a string ([sys.get_int_max_str_digits()], 0 for no limit); and
    [str] of a list or a dictionary, which is a text or an exception. *)
Class Environment : Type := {
  Upstream : Type;
  transport : request -> Upstream -> reply * Upstream;
  json_loads : string -> option pyval;
  why_json_fails : string -> json_failure;
  int_max_str_digits : N;
  str_container : pyval -> string + pyexn
}.

Section Client.

Context `{Environment}.

(** The text of the files that can be read, by path; the events so far;
    the upstream service; the one [dict] object bound to the class
    attribute [headers]; per object id, the attributes [last_request] and
    [last_request_json] that the instance holds in its own [__dict__]; the
    next object id; and the files that exist but cannot be read as text
    (a path with a text in [fs] is readable, whatever [unreadable] says). *)
Record store : Type := Store {
  fs : gmap string string;
  events : list event;
  upstream : Upstream;
  headers : gmap string pyval;
  own_last_request : gmap nat response;
  own_last_request_json : gmap nat pyval;
  next_object : nat;
  unreadable : gmap string read_failure
}.

(** ** The monad of Python computations *)

Inductive outcome (A : Type) : Type :=
  | Returns (a : A) (s : store)
  | Raises (e : pyexn) (s : store).
Arguments Returns {A} a s.
Arguments Raises {A} e s.

Definition py (A : Type) : Type := store -> outcome A.

Definition final_store {A} (o : outcome A) : store :=
  match o with Returns _ s => s | Raises _ s => s end.

#[global] Instance py_ret : MRet py := fun A a s => Returns a s.
#[global] Instance py_bind : MBind py := fun A B f m s =>
  match m s with
  | Returns a s' => f a s'
  | Raises e s' => Raises e s'
  end.

Definition raise {A} (e : pyexn) : py A := fun s => Raises e s.

(** ** Built-ins and library calls *)

(** The decimal digits of [n], with a sign when it is negative. *)
Definition decimal (n : Z) : string := NilZero.string_of_int (Z.to_int n).

(** An [int] is turned into a string only when it has no more digits than
    the interpreter allows; beyond that [str] raises [ValueError]. *)
Definition within_digit_limit (n : Z) : bool :=
  match int_max_str_digits with
  | 0%N => true
  | limit => (N.of_nat (String.length (decimal (Z.abs n))) <=? limit)%N
  end.

(** [str(v)], as an f-string applies it to a value: the text, or the
    exception that formatting raises. *)
Definition py_str (v : pyval) : string + pyexn :=
  match v with
  | PNone => inl "None"
  | PBool true => inl "True"
  | PBool false => inl "False"
  | PInt n => if within_digit_limit n then inl (decimal n) else inr ValueError
  | PFloat r => inl r
  | PStr t => inl t
  | PList _ | PDict _ => str_container v
  end.

(** The replacement field [{v}] of an f-string. *)
Definition py_format (v : pyval) : py string :=
  match py_str v with
  | inl t => mret t
  | inr e => raise e
  end.

(** [open(path)] and the read of the whole file that [json.load] starts
    with: the text of the file; the exception of a file that exists and
    cannot be read as text; or [FileNotFoundError]. *)
Definition open_read (path : string) : py string := fun s =>
  match fs s !! path with
  | Some content => Returns content s
  | None =>
      match unreadable s !! path with
      | Some f => Raises (read_exception f) s
      | None => Raises (FileNotFoundError path) s
      end
  end.

(** [json.loads(text)], also as the second half of [json.load(f)]. *)
Definition json_loads_py (txt : string) : py pyval :=
  match json_loads txt with
  | Some v => mret v
  | None => raise (json_exception (why_json_fails txt))
  end.

(** [v[k]] for a string key [k]. *)
Definition getitem (v : pyval) (k : string) : py pyval :=
  match v with
  | PDict items =>
      match dict_items_get k items with
      | Some x => mret x
      | None => raise (KeyError k)
      end
  | _ => raise TypeError
  end.

(** [self.endpoints[k]]. *)
Definition endpoints_getitem (k : string) : py string :=
  match endpoints !! k with
  | Some path => mret path
  | None => raise (KeyError k)
  end.

(** [assert b]. *)
Definition py_assert (b : bool) : py unit :=
  if b then mret tt else raise AssertionError.

(** [print(line, file=sys.stderr)]. *)
Definition print_stderr (line : string) : py unit := fun s =>
  Returns tt (Store (fs s) (events s ++ [EvStderr line]) (upstream s) (headers s)
                    (own_last_request s) (own_last_request_json s) (next_object s)
                    (unreadable s)).

(** [requests.request(method, url, headers=hdrs, json=body, params=params)]:
    the call is recorded, the upstream service moves on, and the library
    returns or raises. *)
Definition requests_request (method url : string) (hdrs : gmap string pyval)
    (body : pyval) (params : gmap string pyval) : py response := fun s =>
  let rq := Request method url hdrs body params in
  let s' := Store (fs s) (events s ++ [EvRequest rq]) (transport rq (upstream s)).2
                  (headers s) (own_last_request s) (own_last_request_json s)
                  (next_object s) (unreadable s) in
  match (transport rq (upstream s)).1 with
  | Answered r => Returns r s'
  | Failed e => Raises e s'
  end.

(** Binding [**kwargs] at a call whose callee already receives the
    parameters [names] positionally: a keyword of the same name is a
    [TypeError] (multiple values for the argument). *)
Fixpoint reject_keywords (names : list string) (kwargs : gmap string pyval) : py unit :=
  match names with
  | [] => mret tt
  | n :: rest =>
      match kwargs !! n with
      | Some _ => raise TypeError
      | None => reject_keywords rest kwargs
      end
  end.

(** ** Attributes *)

(** [self.headers]: no instance ever binds [headers], so the lookup
    always ends at the class and yields the one shared dictionary. *)
Definition getattr_headers (self : nat) : py (gmap string pyval) := fun s =>
  Returns (headers s) s.

(** [self.headers[k] = v]: item assignment in that shared dictionary. *)
Definition headers_setitem (self : nat) (k : string) (v : pyval) : py unit := fun s =>
  Returns tt (Store (fs s) (events s) (upstream s) (<[k := v]> (headers s))
                    (own_last_request s) (own_last_request_json s) (next_object s)
                    (unreadable s)).

(** [self.last_request] and [self.last_request_json]: the instance's own
    attribute when it has one, the class attribute otherwise. *)
Definition last_request (self : nat) (s : store) : option response :=
  match own_last_request s !! self with
  | Some r => Some r
  | None => class_last_request
  end.

Definition last_request_json (self : nat) (s : store) : pyval :=
  default class_last_request_json (own_last_request_json s !! self).

Definition getattr_last_request_json (self : nat) : py pyval := fun s =>
  Returns (last_request_json self s) s.

(** [self.last_request = r] and [self.last_request_json = j]: attribute
    assignment binds the name in the instance. *)
Definition setattr_last_request (self : nat) (r : response) : py unit := fun s =>
  Returns tt (Store (fs s) (events s) (upstream s) (headers s)
                    (<[self := r]> (own_last_request s)) (own_last_request_json s)
                    (next_object s) (unreadable s)).

Definition setattr_last_request_json (self : nat) (j : pyval) : py unit := fun s =>
  Returns tt (Store (fs s) (events s) (upstream s) (headers s)
                    (own_last_request s) (<[self := j]> (own_last_request_json s))
                    (next_object s) (unreadable s)).

(** ** The class RegFoxAPI *)

Definition __load_api (self : nat) : py unit :=
  content ← open_read default_api_path;
  config ← json_loads_py content;
  key ← getitem config "api_key";
  headers_setitem self "apiKey" key.

Definition __init__ (self : nat) : py unit := __load_api self.

(** [RegFoxAPI()]: a new object, then [__init__] on it. *)
Definition RegFoxAPI : py nat := fun s =>
  let self := next_object s in
  let s' := Store (fs s) (events s) (upstream s) (headers s) (own_last_request s)
                  (own_last_request_json s) (S self) (unreadable s) in
  (_ ← __init__ self; mret self) s'.

(** [__api_request(self, method, url, payload=None, **kwargs)].  The caller
    passes [method] and [url] positionally and spreads its own keywords:
    a keyword [payload] binds the parameter of that name unless the caller
    also passes [payload=] (then it is given twice). *)
Definition __api_request (self : nat) (method url : string)
    (payload : option pyval) (kwargs : gmap string pyval) : py response :=
  _ ← reject_keywords ["self"; "method"; "url"] kwargs;
  body ← match payload, kwargs !! "payload" with
         | Some _, Some _ => raise TypeError
         | Some p, None => mret p
         | None, Some p => mret p
         | None, None => mret PNone
         end;
  hdrs ← getattr_headers self;
  r ← requests_request method url hdrs body (delete "payload" kwargs);
  _ ← setattr_last_request self r;
  j ← json_loads_py (text r);
  _ ← setattr_last_request_json self j;
  mret r.

Definition api_get (self : nat) (endpoint : string) (kwargs : gmap string pyval) : py pyval :=
  _ ← reject_keywords ["self"; "endpoint"] kwargs;
  let url := url_base +:+ endpoint in
  _ ← __api_request self "GET" url None kwargs;
  response ← getattr_last_request_json self;
  mret response.

Definition api_post (self : nat) (endpoint : string) (payload : pyval)
    (kwargs : gmap string pyval) : py pyval :=
  _ ← reject_keywords ["self"; "endpoint"; "payload"] kwargs;
  let url := url_base +:+ endpoint in
  _ ← __api_request self "POST" url (Some payload) kwargs;
  response ← getattr_last_request_json self;
  mret response.

(** *** Pre-defined API calls *)

Definition ping (self : nat) : py pyval :=
  ep ← endpoints_getitem "ping";
  api_get self ep ∅.

Definition search_orders (self : nat) (kwargs : gmap string pyval) : py pyval :=
  _ ← reject_keywords ["self"] kwargs;
  ep ← endpoints_getitem "search_orders";
  api_get self ep kwargs.

Definition list_orders (self : nat) (form_id : pyval) : py pyval :=
  search_orders self {["form_id" := form_id]}.

Definition search_orders_id (self : nat) (order_id : pyval) : py pyval :=
  ep ← endpoints_getitem "search_orders";
  part ← py_format order_id;
  api_get self (ep +:+ "/" +:+ part) ∅.

Definition search_orders_number (self : nat) (order_number : pyval) : py pyval :=
  search_orders self {["orderNumber" := order_number]}.

Definition search_registrants (self : nat) (kwargs : gmap string pyval) : py pyval :=
  _ ← reject_keywords ["self"] kwargs;
  ep ← endpoints_getitem "search_registrants";
  api_get self ep kwargs.

Definition list_registrants (self : nat) (form_id : pyval) : py pyval :=
  search_registrants self {["form_id" := form_id]}.

Definition search_registrants_number (self : nat) (reg_number : pyval) : py pyval :=
  ep ← endpoints_getitem "search_registrants";
  part ← py_format reg_number;
  api_get self (ep +:+ "/" +:+ part) ∅.

(** [assert] is executed: the interpreter runs without [-O]. *)
Definition registrant_checkin (self : nat) (reg_number reg_id : pyval) : py pyval :=
  _ ← py_assert (type_is_int reg_number);
  let payload := PDict [("id", reg_number)] in
  ep ← endpoints_getitem "registrant_checkin";
  api_post self ep payload ∅.

Definition checkout_warning : string :=
  "WARNING: checkout() is broken as of last test run".

Definition registrant_checkout (self : nat) (reg_number reg_id : pyval) : py pyval :=
  _ ← py_assert (type_is_int reg_number);
  let payload := PDict [("id", reg_number)] in
  _ ← print_stderr checkout_warning;
  ep ← endpoints_getitem "registrant_checkout";
  api_post self ep payload ∅.

Definition search_transactions (self : nat) (kwargs : gmap string pyval) : py pyval :=
  _ ← reject_keywords ["self"] kwargs;
  ep ← endpoints_getitem "search_transactions";
  api_get self ep kwargs.

Definition list_transactions (self : nat) (form_id : pyval) : py pyval :=
  search_transactions self {["formId" := form_id]}.

Definition search_transactions_order_id (self : nat) (order_id : pyval) : py pyval :=
  search_transactions self {["orderId" := order_id]}.

Definition search_transactions_order_number (self : nat) (order_number : pyval) : py pyval :=
  search_transactions self {["orderNumber" := order_number]}.

Definition search_transactions_customer_id (self : nat) (customer_id : pyval) : py pyval :=
  search_transactions self {["customerId" := customer_id]}.

Definition search_customers (self : nat) (kwargs : gmap string pyval) : py pyval :=
  _ ← reject_keywords ["self"] kwargs;
  ep ← endpoints_getitem "search_customers";
  api_get self ep kwargs.

Definition list_customers (self : nat) (form_id : pyval) : py pyval :=
  search_customers self {["formId" := form_id]}.

Definition search_customers_id (self : nat) (customer_id : pyval) : py pyval :=
  ep ← endpoints_getitem "search_customers";
  part ← py_format customer_id;
  api_get self (ep +:+ "/" +:+ part) ∅.

Definition search_customers_email (self : nat) (email : pyval) : py pyval :=
  search_customers self {["email" := email]}.

Definition list_forms (self : nat) : py pyval :=
  ep ← endpoints_getitem "forms";
  api_get self ep ∅.

Definition search_forms_id (self : nat) (form_id : pyval) : py pyval :=
  ep ← endpoints_getitem "forms";
  part ← py_format form_id;
  api_get self (ep +:+ "/" +:+ part) ∅.

Definition list_global_coupons (self : nat) (kwargs : gmap string pyval) : py pyval :=
  _ ← reject_keywords ["self"] kwargs;
  ep ← endpoints_getitem "list_global_coupons";
  api_get self ep kwargs.

Definition list_form_coupons (self : nat) (form_id : pyval) : py pyval :=
  ep ← endpoints_getitem "list_form_coupons";
  part ← py_format form_id;
  api_get self (ep +:+ "/" +:+ part) ∅.

Definition search_coupons (self : nat) (coupon_id : pyval) : py pyval :=
  ep ← endpoints_getitem "coupons";
  part ← py_format coupon_id;
  api_get self (ep +:+ "/" +:+ part) ∅.

Definition search_inventory (self : nat) (form_id : pyval) : py pyval :=
  ep ← endpoints_getitem "forms";
  part ← py_format form_id;
  api_get self (ep +:+ "/" +:+ part +:+ "/inventory") ∅.

(** *** Inactive API functions *)

Definition search_tickets (self : nat) : py pyval :=
  api_get self "/search/tickets" ∅.

Definition search_subscriptions (self : nat) : py pyval :=
  api_get self "/search/subscriptions" ∅.

Definition search_memberships (self : nat) : py pyval :=
  api_get self "/search/memberships" ∅.

(** ** Calls of the named methods, as data *)

(** One constructor per named convenience method, with its arguments. *)
Inductive call : Type :=
  | Ping
  | ListOrders (form_id : pyval)
  | SearchOrders (kwargs : gmap string pyval)
  | SearchOrdersId (order_id : pyval)
  | SearchOrdersNumber (order_number : pyval)
  | ListRegistrants (form_id : pyval)
  | SearchRegistrants (kwargs : gmap string pyval)
  | SearchRegistrantsNumber (reg_number : pyval)
  | RegistrantCheckin (reg_number reg_id : pyval)
  | RegistrantCheckout (reg_number reg_id : pyval)
  | ListTransactions (form_id : pyval)
  | SearchTransactions (kwargs : gmap string pyval)
  | SearchTransactionsOrderId (order_id : pyval)
  | SearchTransactionsOrderNumber (order_number : pyval)
  | SearchTransactionsCustomerId (customer_id : pyval)
  | ListCustomers (form_id : pyval)
  | SearchCustomers (kwargs : gmap string pyval)
  | SearchCustomersId (customer_id : pyval)
  | SearchCustomersEmail (email : pyval)
  | ListForms
  | SearchFormsId (form_id : pyval)
  | ListGlobalCoupons (kwargs : gmap string pyval)
  | ListFormCoupons (form_id : pyval)
  | SearchCoupons (coupon_id : pyval)
  | SearchInventory (form_id : pyval)
  | SearchTickets
  | SearchSubscriptions
  | SearchMemberships.

Definition invoke (self : nat) (c : call) : py pyval :=
  match c with
  | Ping => ping self
  | ListOrders form_id => list_orders self form_id
  | SearchOrders kwargs => search_orders self kwargs
  | SearchOrdersId order_id => search_orders_id self order_id
  | SearchOrdersNumber order_number => search_orders_number self order_number
  | ListRegistrants form_id => list_registrants self form_id
  | SearchRegistrants kwargs => search_registrants self kwargs
  | SearchRegistrantsNumber reg_number => search_registrants_number self reg_number
  | RegistrantCheckin reg_number reg_id => registrant_checkin self reg_number reg_id
  | RegistrantCheckout reg_number reg_id => registrant_checkout self reg_number reg_id
  | ListTransactions form_id => list_transactions self form_id
  | SearchTransactions kwargs => search_transactions self kwargs
  | SearchTransactionsOrderId order_id => search_transactions_order_id self order_id
  | SearchTransactionsOrderNumber order_number =>
      search_transactions_order_number self order_number
  | SearchTransactionsCustomerId customer_id =>
      search_transactions_customer_id self customer_id
  | ListCustomers form_id => list_customers self form_id
  | SearchCustomers kwargs => search_customers self kwargs
  | SearchCustomersId customer_id => search_customers_id self customer_id
  | SearchCustomersEmail email => search_customers_email self email
  | ListForms => list_forms self
  | SearchFormsId form_id => search_forms_id self form_id
  | ListGlobalCoupons kwargs => list_global_coupons self kwargs
  | ListFormCoupons form_id => list_form_coupons self form_id
  | SearchCoupons coupon_id => search_coupons self coupon_id
  | SearchInventory form_id => search_inventory self form_id
  | SearchTickets => search_tickets self
  | SearchSubscriptions => search_subscriptions self
  | SearchMemberships => search_memberships self
  end.

(** A caller that makes the calls [cs] one after the other through the
    objects named, going on after an exception. *)
Fixpoint run_calls (cs : list (nat * call)) (s : store) : store :=
  match cs with
  | [] => s
  | (self, c) :: rest => run_calls rest (final_store (invoke self c s))
  end.

(** ** One exchange with the upstream service *)

(** The store once [requests.request] has been called with [rq]. *)
Definition recorded (rq : request) (s : store) : store :=
  Store (fs s) (events s ++ [EvRequest rq]) (transport rq (upstream s)).2
        (headers s) (own_last_request s) (own_last_request_json s) (next_object s)
        (unreadable s).

Definition remember_response (self : nat) (r : response) (s : store) : store :=
  Store (fs s) (events s) (upstream s) (headers s)
        (<[self := r]> (own_last_request s)) (own_last_request_json s) (next_object s)
        (unreadable s).

Definition remember_json (self : nat) (j : pyval) (s : store) : store :=
  Store (fs s) (events s) (upstream s) (headers s)
        (own_last_request s) (<[self := j]> (own_last_request_json s)) (next_object s)
        (unreadable s).

(** What [api_get] and [api_post] come to once their keywords are bound:
    the call [rq] is made; a failure of the library propagates; a body
    that does not parse raises after the response has been remembered;
    otherwise the parsed body is remembered and returned. *)
Definition exchange (self : nat) (rq : request) (s : store) : outcome pyval :=
  match (transport rq (upstream s)).1 with
  | Failed e => Raises e (recorded rq s)
  | Answered r =>
      match json_loads (text r) with
      | None =>
          Raises (json_exception (why_json_fails (text r)))
                 (remember_response self r (recorded rq s))
      | Some j =>
          Returns j (remember_json self j (remember_response self r (recorded rq s)))
      end
  end.

(** No keyword of [kwargs] is called [n], for each [n] of [names]. *)
Definition keywords_free (names : list string) (kwargs : gmap string pyval) : bool :=
  forallb (fun n => match kwargs !! n with None => true | Some _ => false end) names.

(** The events a computation started in [s] has added. *)
Definition new_events {A} (o : outcome A) (s : store) : list event :=
  drop (length (events s)) (events (final_store o)).

(** The calls of [requests.request] among them. *)
Definition issued {A} (o : outcome A) (s : store) : list request :=
  requests_of (new_events o s).

(** ** The endpoint catalog and the table of calls *)


(** The catalog path that belongs to a method: the table of the contract,
    written from the catalog and not from the method bodies.  The three
    inactive methods have none. *)
Definition catalog_path (c : call) : option string :=
  match c with
  | Ping => Some "/ping"
  | ListOrders _ | SearchOrders _ | SearchOrdersId _ | SearchOrdersNumber _ =>
      Some "/search/orders"
  | ListRegistrants _ | SearchRegistrants _ | SearchRegistrantsNumber _ =>
      Some "/search/registrants"
  | RegistrantCheckin _ _ => Some "/registrant/check-in"
  | RegistrantCheckout _ _ => Some "/registrant/check-out"
  | ListTransactions _ | SearchTransactions _ | SearchTransactionsOrderId _
  | SearchTransactionsOrderNumber _ | SearchTransactionsCustomerId _ =>
      Some "/search/transactions"
  | ListCustomers _ | SearchCustomers _ | SearchCustomersId _ | SearchCustomersEmail _ =>
      Some "/search/customers"
  | ListGlobalCoupons _ => Some "/coupons/global"
  | ListFormCoupons _ => Some "/coupons/forms"
  | SearchCoupons _ => Some "/coupons"
  | ListForms | SearchFormsId _ | SearchInventory _ => Some "/forms"
  | SearchTickets | SearchSubscriptions | SearchMemberships => None
  end.


(** The text of a value that formats, and whether it does. *)
Definition text_of (v : pyval) : string :=
  match py_str v with
  | inl t => t
  | inr _ => ""
  end.

Definition formats (v : pyval) : bool :=
  match py_str v with
  | inl _ => true
  | inr _ => false
  end.

(** What an entity-specific method appends to its catalog path. *)
Definition entity_suffix (c : call) : string :=
  match c with
  | SearchOrdersId v | SearchRegistrantsNumber v | SearchCustomersId v
  | SearchFormsId v | ListFormCoupons v | SearchCoupons v => "/" +:+ text_of v
  | SearchInventory v => "/" +:+ text_of v +:+ "/inventory"
  | _ => ""
  end.

(** The path a call is expected to request. *)
Definition path_of (c : call) : string :=
  match c with
  | SearchTickets => "/search/tickets"
  | SearchSubscriptions => "/search/subscriptions"
  | SearchMemberships => "/search/memberships"
  | _ => default "" (catalog_path c) +:+ entity_suffix c
  end.

Definition verb (c : call) : string :=
  match c with
  | RegistrantCheckin _ _ | RegistrantCheckout _ _ => "POST"
  | _ => "GET"
  end.

(** The keywords a method hands to [api_get]. *)
Definition keywords (c : call) : gmap string pyval :=
  match c with
  | ListOrders v | ListRegistrants v => {["form_id" := v]}
  | ListTransactions v | ListCustomers v => {["formId" := v]}
  | SearchOrdersNumber v | SearchTransactionsOrderNumber v => {["orderNumber" := v]}
  | SearchTransactionsOrderId v => {["orderId" := v]}
  | SearchTransactionsCustomerId v => {["customerId" := v]}
  | SearchCustomersEmail v => {["email" := v]}
  | SearchOrders kw | SearchRegistrants kw | SearchTransactions kw
  | SearchCustomers kw | ListGlobalCoupons kw => kw
  | _ => ∅
  end.

Definition body_of (c : call) : pyval :=
  match c with
  | RegistrantCheckin v _ | RegistrantCheckout v _ => PDict [("id", v)]
  | _ => default PNone (keywords c !! "payload")
  end.

Definition params_of (c : call) : gmap string pyval := delete "payload" (keywords c).

(** The arguments bind, pass validation and format. *)
Definition accepted (c : call) : bool :=
  match c with
  | RegistrantCheckin v _ | RegistrantCheckout v _ => type_is_int v
  | SearchOrdersId v | SearchRegistrantsNumber v | SearchCustomersId v
  | SearchFormsId v | ListFormCoupons v | SearchCoupons v | SearchInventory v => formats v
  | _ => keywords_free ["self"; "endpoint"; "method"; "url"] (keywords c)
  end.

(** What is raised when they do not. *)
Definition rejection (c : call) : pyexn :=
  match c with
  | RegistrantCheckin _ _ | RegistrantCheckout _ _ => AssertionError
  | SearchOrdersId v | SearchRegistrantsNumber v | SearchCustomersId v
  | SearchFormsId v | ListFormCoupons v | SearchCoupons v | SearchInventory v =>
      match py_str v with
      | inr e => e
      | inl _ => TypeError
      end
  | _ => TypeError
  end.

(** The store when the request is about to be made: check-out has printed
    its warning by then. *)
Definition warned (c : call) (s : store) : store :=
  match c with
  | RegistrantCheckout _ _ =>
      Store (fs s) (events s ++ [EvStderr checkout_warning]) (upstream s) (headers s)
            (own_last_request s) (own_last_request_json s) (next_object s) (unreadable s)
  | _ => s
  end.

Definition request_of (c : call) (s : store) : request :=
  Request (verb c) (url_base +:+ path_of c) (headers s) (body_of c) (params_of c).

(** The entity-specific methods, each as a function of the id. *)
Definition entity_methods : list (pyval -> call) :=
  [SearchOrdersId; SearchRegistrantsNumber; SearchCustomersId; SearchFormsId;
   ListFormCoupons; SearchCoupons; SearchInventory].

(** The events a call adds before its request. *)
Definition warning_of (c : call) : list event :=
  match c with
  | RegistrantCheckout _ _ => [EvStderr checkout_warning]
  | _ => []
  end.

(** The requests of check-in and check-out for the registrant [n]. *)
Definition checkin_request (n : Z) (s : store) : request :=
  Request "POST" (url_base +:+ "/registrant/check-in") (headers s)
          (PDict [("id", PInt n)]) ∅.


(** The request of [search_orders(orderNumber=X)]. *)
Definition order_number_request (X : string) (s : store) : request :=
  Request "GET" (url_base +:+ "/search/orders") (headers s) PNone
          {["orderNumber" := PStr X]}.

(** The store when the class has just been created: the given files and
    service, nothing on record, no object yet, no file that cannot be
    read. *)
Definition boot (files : gmap string string) (u : Upstream) : store :=
  Store files [] u initial_headers ∅ ∅ 0 ∅.

(** How a generic request [o], made with [rq] from [s], ends: a failure of
    the library propagates as it is; when [json.loads] raises on the body
    ([JSONDecodeError] for a body that is not JSON, [RecursionError] for
    one nested too deep, [ValueError] for an integer that is too long),
    that exception propagates; and otherwise the parsed body is
    returned. *)
Definition ends_as_upstream_decides (o : outcome pyval) (rq : request) (s : store) : Prop :=
  match (transport rq (upstream s)).1 with
  | Failed e => exists s', o = Raises e s'
  | Answered r =>
      match json_loads (text r), why_json_fails (text r) with
      | Some j, _ => exists s', o = Returns j s'
      | None, NotJSON => exists s', o = Raises JSONDecodeError s'
      | None, NestedTooDeep => exists s', o = Raises RecursionError s'
      | None, IntegerTooLong => exists s', o = Raises ValueError s'
      end
  end.

(** The environment replaces the content of a file. *)
Definition write_file (path content : string) (s : store) : store :=
  Store (<[path := content]> (fs s)) (events s) (upstream s) (headers s)
        (own_last_request s) (own_last_request_json s) (next_object s)
        (delete path (unreadable s)).

(** A file becomes one that exists and cannot be read as text. *)
Definition break_file (path : string) (f : read_failure) (s : store) : store :=
  Store (delete path (fs s)) (events s) (upstream s) (headers s)
        (own_last_request s) (own_last_request_json s) (next_object s)
        (<[path := f]> (unreadable s)).

(** ** The manual test that prints nothing *)

(** [test_specific_reg()]; [regfox] is the client that the module makes
    when it is loaded ([regfox = RegFoxAPI()]).  The two subscripts are
    evaluated and their values dropped. *)
Definition test_specific_reg (regfox : nat) : py unit :=
  let reg_number := PStr "1230469" in
  let order_number := PStr "EXAMPLEEVENT202J91234X" in
  found ← search_registrants_number regfox reg_number;
  _ ← getitem found "totalResults";
  orders ← search_orders regfox {["orderNumber" := order_number]};
  _ ← getitem orders "totalResults";
  mret tt.

(** ** Programs that use the client *)

(** What a program around the client does, one step at a time: it makes a
    client, calls a named method through an object, or the configuration
    (or any other file) is replaced meanwhile.  An exception ends the step
    and the program goes on. *)
Inductive action : Type :=
  | Construct
  | Invoke (self : nat) (c : call)
  | ReplaceFile (path content : string).

Definition act (a : action) (s : store) : store :=
  match a with
  | Construct => final_store (RegFoxAPI s)
  | Invoke self c => final_store (invoke self c s)
  | ReplaceFile path content => write_file path content s
  end.

Fixpoint run_actions (acts : list action) (s : store) : store :=
  match acts with
  | [] => s
  | a :: rest => run_actions rest (act a s)
  end.

(** What every request of the client looks like: its only header is
    [apiKey], its URL is under the base URL, and it is a GET or a POST. *)
Definition well_sent (rq : request) : Prop :=
  dom (req_headers rq) = {["apiKey"]} /\
  (exists path, req_url rq = url_base +:+ path) /\
  (req_method rq = "GET" \/ req_method rq = "POST").

End Client.

Arguments Returns {_ _} a s.
Arguments Raises {_ _} e s.

(** ** An example environment *)

(** A small upstream service to run the client against: it is reachable
    or not, and it remembers who is checked in. *)
Record service : Type := Service {
  online : bool;
  checked_in : list Z
}.

Definition dq : string := String "034"%char "".
Definition quoted (t : string) : string := dq +:+ t +:+ dq.

Definition conflict_text : string :=
  "{" +:+ quoted "responseCode" +:+ ":500," +:+ quoted "error" +:+ ":{" +:+
  quoted "code" +:+ ":8500," +:+ quoted "description" +:+ ":" +:+
  quoted "all ready checked in" +:+ "}}".

Definition conflict_json : pyval :=
  PDict [("responseCode", PInt 500);
         ("error", PDict [("code", PInt 8500);
                          ("description", PStr "all ready checked in")])].

Definition checkin_text : string :=
  "{" +:+ quoted "id" +:+ ":1230469," +:+ quoted "date" +:+ ":" +:+
  quoted "2020-01-31T09:04:56.538973464Z" +:+ "}".

Definition checkin_json : pyval :=
  PDict [("id", PInt 1230469); ("date", PStr "2020-01-31T09:04:56.538973464Z")].

Definition pong_text : string := "{" +:+ quoted "responseCode" +:+ ":200}".
Definition pong_json : pyval := PDict [("responseCode", PInt 200)].

Definition orders_text : string :=
  "{" +:+ quoted "responseCode" +:+ ":200," +:+ quoted "data" +:+ ":[{" +:+
  quoted "id" +:+ ":1234567," +:+ quoted "orderNumber" +:+ ":" +:+
  quoted "EXAMPLEEVENT202J91234X" +:+ "}]," +:+ quoted "totalResults" +:+ ":1}".

Definition orders_json : pyval :=
  PDict [("responseCode", PInt 200);
         ("data", PList [PDict [("id", PInt 1234567);
                                ("orderNumber", PStr "EXAMPLEEVENT202J91234X")]]);
         ("totalResults", PInt 1)].

Definition config_text : string := "{" +:+ quoted "api_key" +:+ ":" +:+ quoted "0123abcd" +:+ "}".
Definition config_json : pyval := PDict [("api_key", PStr "0123abcd")].

Definition other_config_text : string :=
  "{" +:+ quoted "api_key" +:+ ":" +:+ quoted "ffff9999" +:+ "}".
Definition other_config_json : pyval := PDict [("api_key", PStr "ffff9999")].

Definition keyless_config_text : string :=
  "{" +:+ quoted "name" +:+ ":" +:+ quoted "regfox" +:+ "}".
Definition keyless_config_json : pyval := PDict [("name", PStr "regfox")].

Fixpoint table_get (t : string) (table : list (string * pyval)) : option pyval :=
  match table with
  | [] => None
  | (t', v) :: rest => if String.eqb t t' then Some v else table_get t rest
  end.

(** A parser that knows the texts above and [[1]], and no other. *)
Definition example_json_loads (t : string) : option pyval :=
  table_get t
    [(conflict_text, conflict_json); (checkin_text, checkin_json); (pong_text, pong_json);
     (orders_text, orders_json); (config_text, config_json);
     (other_config_text, other_config_json); (keyless_config_text, keyless_config_json);
     ("[1]", PList [PInt 1])].

Definition is_json_id (body : pyval) : option Z :=
  match body with
  | PDict [(k, PInt n)] => if String.eqb k "id" then Some n else None
  | _ => None
  end.

(** The service answers [/ping], finds one order by its number, and checks
    a registrant in on either of the two registrant endpoints, with a
    conflict for one who is checked in already.  Anything else is a page
    that is not JSON.  When it is not reachable the library raises. *)
Definition example_transport (rq : request) (u : service) : reply * service :=
  if negb (online u) then (Failed (RequestsException "ConnectionError"), u)
  else if String.eqb (req_url rq) (url_base +:+ "/ping")
  then (Answered (Response 200 pong_text), u)
  else if String.eqb (req_url rq) (url_base +:+ "/search/orders")
  then match req_params rq !! "orderNumber" with
       | Some (PStr X) =>
           if String.eqb X "EXAMPLEEVENT202J91234X"
           then (Answered (Response 200 orders_text), u)
           else (Answered (Response 404 "<html>Not Found</html>"), u)
       | _ => (Answered (Response 404 "<html>Not Found</html>"), u)
       end
  else if String.eqb (req_url rq) (url_base +:+ "/registrant/check-in")
          || String.eqb (req_url rq) (url_base +:+ "/registrant/check-out")
  then match is_json_id (req_json rq) with
       | Some n =>
           if bool_decide (n ∈ checked_in u)
           then (Answered (Response 500 conflict_text), u)
           else (Answered (Response 200 checkin_text), Service true (n :: checked_in u))
       | None => (Answered (Response 404 "<html>Not Found</html>"), u)
       end
  else (Answered (Response 404 "<html>Not Found</html>"), u).

(** [repr] of a string, as Python writes it: in single quotes, or in
    double quotes when the string has a single quote and no double quote;
    the quote in use and the backslash are escaped, tab, newline and
    carriage return are written as their escapes and the other control
    characters in hexadecimal. *)
Fixpoint string_has (c : ascii) (t : string) : bool :=
  match t with
  | EmptyString => false
  | String a rest => Ascii.eqb a c || string_has c rest
  end.

Definition hex_digit (b3 b2 b1 b0 : bool) : string :=
  match b3, b2, b1, b0 with
  | false, false, false, false => "0"
  | false, false, false, true => "1"
  | false, false, true, false => "2"
  | false, false, true, true => "3"
  | false, true, false, false => "4"
  | false, true, false, true => "5"
  | false, true, true, false => "6"
  | false, true, true, true => "7"
  | true, false, false, false => "8"
  | true, false, false, true => "9"
  | true, false, true, false => "a"
  | true, false, true, true => "b"
  | true, true, false, false => "c"
  | true, true, false, true => "d"
  | true, true, true, false => "e"
  | true, true, true, true => "f"
  end.

Definition escape_char (quote c : ascii) : string :=
  if Ascii.eqb c "\"%char then "\\"
  else if Ascii.eqb c quote then String "\"%char (String c "")
  else if Ascii.eqb c "009"%char then "\t"
  else if Ascii.eqb c "010"%char then "\n"
  else if Ascii.eqb c "013"%char then "\r"
  else match c with
       | Ascii b0 b1 b2 b3 b4 b5 b6 b7 =>
           if (negb b5 && negb b6 && negb b7) || Ascii.eqb c "127"%char
           then "\x" +:+ hex_digit b7 b6 b5 b4 +:+ hex_digit b3 b2 b1 b0
           else String c ""
       end.

Fixpoint escape_string (quote : ascii) (t : string) : string :=
  match t with
  | EmptyString => ""
  | String c rest => escape_char quote c +:+ escape_string quote rest
  end.

Definition example_repr_str (t : string) : string :=
  let quote := if string_has "'"%char t && negb (string_has "034"%char t)
               then "034"%char else "'"%char in
  String quote (escape_string quote t) +:+ String quote "".

(** [repr] of a value, [None] when an [int] in it has more than 4300
    digits. *)
Fixpoint example_repr (v : pyval) : option string :=
  match v with
  | PNone => Some "None"
  | PBool true => Some "True"
  | PBool false => Some "False"
  | PInt n =>
      if (N.of_nat (String.length (decimal (Z.abs n))) <=? 4300)%N
      then Some (decimal n) else None
  | PFloat r => Some r
  | PStr t => Some (example_repr_str t)
  | PList items =>
      texts ← (fix each (l : list pyval) : option (list string) :=
                 match l with
                 | [] => Some []
                 | x :: rest => t ← example_repr x; ts ← each rest; Some (t :: ts)
                 end) items;
      Some ("[" +:+ String.concat ", " texts +:+ "]")
  | PDict items =>
      texts ← (fix each (l : list (string * pyval)) : option (list string) :=
                 match l with
                 | [] => Some []
                 | (k, x) :: rest =>
                     t ← example_repr x; ts ← each rest;
                     Some ((example_repr_str k +:+ ": " +:+ t) :: ts)
                 end) items;
      Some ("{" +:+ String.concat ", " texts +:+ "}")
  end.

Definition example_str_container (v : pyval) : string + pyexn :=
  match example_repr v with
  | Some t => inl t
  | None => inr ValueError
  end.

(** The interpreter of the examples has the default limit of 4300 digits,
    and its parser rejects what it does not know as text that is not
    JSON. *)
Definition example_env : Environment := {|
  Upstream := service;
  transport := example_transport;
  json_loads := example_json_loads;
  why_json_fails := fun _ => NotJSON;
  int_max_str_digits := 4300%N;
  str_container := example_str_container
|}.

(** The stores of the examples: a configuration file or none, the service
    reachable or not, registrant 1230469 checked in or not. *)
Definition configured : @store example_env :=
  @boot example_env {["config.json" := config_text]} (Service true []).

Definition unconfigured : @store example_env :=
  @boot example_env ∅ (Service true []).

Definition unreachable : @store example_env :=
  @boot example_env {["config.json" := config_text]} (Service false []).

Definition after_checkin : @store example_env :=
  @boot example_env {["config.json" := config_text]} (Service true [1230469%Z]).

(** A configuration file that is not JSON, one without the key, and one
    that is a JSON array. *)
Definition malformed : @store example_env :=
  @boot example_env {["config.json" := "api_key = 0123abcd"]} (Service true []).

Definition keyless : @store example_env :=
  @boot example_env {["config.json" := keyless_config_text]} (Service true []).

Definition listed : @store example_env :=
  @boot example_env {["config.json" := "[1]"]} (Service true []).

(** A configuration file whose bytes do not decode. *)
Definition undecodable : @store example_env :=
  @break_file example_env "config.json" NotDecodable configured.

(** [regfox = RegFoxAPI()] has run: object 0 is the client. *)
Definition ready : @store example_env :=
  final_store (@RegFoxAPI example_env configured).

(** The client has checked registrant 1230469 in. *)
Definition checked : @store example_env :=
  final_store (@registrant_checkin example_env 0 (PInt 1230469) PNone ready).

(** The configuration file has been replaced since the client was made. *)
Definition reconfigured : @store example_env :=
  @write_file example_env "config.json" other_config_text ready.


(** A program around two clients. *)
Definition example_program : list action :=
  [Construct; Invoke 0 Ping; ReplaceFile "config.json" other_config_text; Construct;
   Invoke 1 (RegistrantCheckin (PInt 1230469) PNone);
   Invoke 0 (SearchOrders {["url" := PStr "https://example.com"]})].

(** An environment whose service answers every request with one body. *)
Definition constant_env (body : string) : Environment := {|
  Upstream := unit;
  transport := fun _ u => (Answered (Response 200 body), u);
  json_loads := example_json_loads;
  why_json_fails := fun _ => NotJSON;
  int_max_str_digits := 4300%N;
  str_container := example_str_container
|}.

Section Contract.

Context `{Environment}.

Ltac py_unfold :=
  unfold mbind, py_bind, mret, py_ret, raise, py_assert, getattr_headers,
    getattr_last_request_json, setattr_last_request, setattr_last_request_json,
    requests_request, json_loads_py, print_stderr in *.

Lemma reject_keywords_eq names kwargs s :
  reject_keywords names kwargs s =
  if keywords_free names kwargs then Returns tt s else Raises TypeError s.
Proof.
  induction names as [|n names IH]; simpl; [reflexivity|].
  destruct (kwargs !! n); simpl; [reflexivity|exact IH].
Qed.

Lemma api_request_eq self method url payload kwargs s :
  keywords_free ["self"; "method"; "url"] kwargs = true ->
  (payload = None \/ kwargs !! "payload" = None) ->
  __api_request self method url payload kwargs s =
  match
    exchange self
      (Request method url (headers s)
         (match payload with
          | Some p => p
          | None => default PNone (kwargs !! "payload")
          end)
         (delete "payload" kwargs)) s
  with
  | Returns _ s' =>
      match (transport (Request method url (headers s)
               (match payload with
                | Some p => p
                | None => default PNone (kwargs !! "payload")
                end) (delete "payload" kwargs)) (upstream s)).1 with
      | Answered r => Returns r s'
      | Failed e => Raises e s'
      end
  | Raises e s' => Raises e s'
  end.
Proof.
  intros Hfree Hpay. unfold __api_request, exchange, recorded, remember_response, remember_json.
  unfold mbind at 1, py_bind at 1. rewrite reject_keywords_eq, Hfree.
  py_unfold.
  destruct payload as [p|], (kwargs !! "payload") as [q|] eqn:Hq; simpl;
    try (destruct Hpay; discriminate);
    match goal with
    | |- context [transport ?rq (upstream s)] =>
        destruct (transport rq (upstream s)) as [[r|e] u]; simpl; try reflexivity;
        destruct (json_loads _); py_unfold; reflexivity
    end.
Qed.

Lemma exchange_returns_json self rq s j s' :
  exchange self rq s = Returns j s' -> last_request_json self s' = j.
Proof.
  unfold exchange. destruct (transport rq (upstream s)).1 as [r|e]; [|discriminate].
  destruct (json_loads (text r)) as [v|]; [|discriminate].
  intros [= <- <-]. unfold last_request_json, remember_json. simpl.
  rewrite lookup_insert_eq. reflexivity.
Qed.

Lemma bind_exchange_last_json self rq s :
  match exchange self rq s with
  | Returns _ s' => Returns (last_request_json self s') s'
  | Raises e s' => Raises e s'
  end = exchange self rq s.
Proof.
  destruct (exchange self rq s) as [j s'|e s'] eqn:E; [|reflexivity].
  rewrite (exchange_returns_json _ _ _ _ _ E). reflexivity.
Qed.

Lemma api_get_eq self ep kwargs s :
  api_get self ep kwargs s =
  if keywords_free ["self"; "endpoint"; "method"; "url"] kwargs
  then exchange self
         (Request "GET" (url_base +:+ ep) (headers s)
            (default PNone (kwargs !! "payload")) (delete "payload" kwargs)) s
  else Raises TypeError s.
Proof.
  rewrite <- bind_exchange_last_json.
  unfold api_get, __api_request, exchange, recorded, remember_response, remember_json.
  unfold keywords_free. cbn [reject_keywords forallb andb]. py_unfold.
  destruct (kwargs !! "self"); [reflexivity|].
  destruct (kwargs !! "endpoint"); [reflexivity|].
  destruct (kwargs !! "method"); [reflexivity|].
  destruct (kwargs !! "url"); [reflexivity|].
  destruct (kwargs !! "payload"); cbv beta iota delta [default from_option id];
    match goal with
    | |- context [transport ?rq (upstream s)] =>
        destruct (transport rq (upstream s)) as [[r|e] u]; cbn [fst snd]; try reflexivity;
        destruct (json_loads _); py_unfold; reflexivity
    end.
Qed.

Lemma api_post_eq self ep payload kwargs s :
  api_post self ep payload kwargs s =
  if keywords_free ["self"; "endpoint"; "payload"; "method"; "url"] kwargs
  then exchange self (Request "POST" (url_base +:+ ep) (headers s) payload kwargs) s
  else Raises TypeError s.
Proof.
  rewrite <- bind_exchange_last_json.
  unfold api_post, __api_request, exchange, recorded, remember_response, remember_json.
  unfold keywords_free. cbn [reject_keywords forallb andb]. py_unfold.
  destruct (kwargs !! "self"); [reflexivity|].
  destruct (kwargs !! "endpoint"); [reflexivity|].
  destruct (kwargs !! "payload") eqn:Hp; [reflexivity|].
  destruct (kwargs !! "method"); [reflexivity|].
  destruct (kwargs !! "url"); [reflexivity|].
  rewrite (delete_id _ _ Hp). cbv beta iota.
  match goal with
  | |- context [transport ?rq (upstream s)] =>
      destruct (transport rq (upstream s)) as [[r|e] u]; cbn [fst snd]; try reflexivity;
      destruct (json_loads _); py_unfold; reflexivity
  end.
Qed.

Lemma new_events_unchanged {A} (o : outcome A) s :
  final_store o = s -> new_events o s = [].
Proof. intros <-. unfold new_events. apply drop_all. Qed.

Lemma new_events_exchange self rq s :
  new_events (exchange self rq s) s = [EvRequest rq].
Proof.
  unfold new_events, exchange.
  destruct (transport rq (upstream s)).1 as [r|e]; [destruct (json_loads (text r))|];
    simpl; apply drop_app_length.
Qed.

Lemma keywords_free_self_strengthen kwargs :
  keywords_free ["self"] kwargs = false ->
  keywords_free ["self"; "endpoint"; "method"; "url"] kwargs = false.
Proof.
  unfold keywords_free. cbn [forallb]. destruct (kwargs !! "self"); [reflexivity|discriminate].
Qed.

Lemma endpoints_getitem_bind {A} k p (f : string -> py A) s :
  endpoints !! k = Some p -> (ep ← endpoints_getitem k; f ep) s = f p s.
Proof. intros E. unfold mbind, py_bind, endpoints_getitem. rewrite E. reflexivity. Qed.

(** A method that requests its catalog path with no keyword. *)
Lemma plain_eq self k p s :
  endpoints !! k = Some p ->
  (ep ← endpoints_getitem k; api_get self ep ∅) s =
  exchange self (Request "GET" (url_base +:+ p) (headers s) PNone ∅) s.
Proof.
  intros E. rewrite (endpoints_getitem_bind _ _ _ _ E), api_get_eq.
  rewrite delete_empty, lookup_empty. reflexivity.
Qed.

(** A method that appends the id to its catalog path. *)
Lemma entity_eq self k p v (tail : string -> string) s :
  endpoints !! k = Some p ->
  (ep ← endpoints_getitem k; part ← py_format v; api_get self (ep +:+ "/" +:+ tail part) ∅) s =
  if formats v
  then exchange self
         (Request "GET" (url_base +:+ p +:+ "/" +:+ tail (text_of v)) (headers s) PNone ∅) s
  else Raises (match py_str v with inr e => e | inl _ => TypeError end) s.
Proof.
  intros E.
  rewrite (endpoints_getitem_bind _ _
             (fun ep => part ← py_format v; api_get self (ep +:+ "/" +:+ tail part) ∅) _ E).
  unfold mbind, py_bind, py_format, formats, text_of.
  destruct (py_str v) as [t|e]; [|reflexivity].
  cbn [mret py_ret]. rewrite api_get_eq, delete_empty, lookup_empty. reflexivity.
Qed.

(** A method that requests a path written in its body. *)
Lemma literal_eq self p s :
  api_get self p ∅ s =
  exchange self (Request "GET" (url_base +:+ p) (headers s) PNone ∅) s.
Proof. rewrite api_get_eq, delete_empty, lookup_empty. reflexivity. Qed.

(** A method that spreads the caller's keywords into [api_get]. *)
Lemma spread_eq self k p kwargs s :
  endpoints !! k = Some p ->
  (_ ← reject_keywords ["self"] kwargs; ep ← endpoints_getitem k; api_get self ep kwargs) s =
  if keywords_free ["self"; "endpoint"; "method"; "url"] kwargs
  then exchange self
         (Request "GET" (url_base +:+ p) (headers s)
            (default PNone (kwargs !! "payload")) (delete "payload" kwargs)) s
  else Raises TypeError s.
Proof.
  intros E. unfold mbind at 1, py_bind at 1. rewrite reject_keywords_eq.
  destruct (keywords_free ["self"] kwargs) eqn:F.
  - rewrite (endpoints_getitem_bind _ _ _ _ E). apply api_get_eq.
  - rewrite (keywords_free_self_strengthen _ F). reflexivity.
Qed.

Lemma registrant_checkin_eq self reg_number reg_id s :
  registrant_checkin self reg_number reg_id s =
  if type_is_int reg_number
  then exchange self
         (Request "POST" (url_base +:+ "/registrant/check-in") (headers s)
            (PDict [("id", reg_number)]) ∅) s
  else Raises AssertionError s.
Proof.
  unfold registrant_checkin. unfold mbind at 1, py_bind at 1, py_assert.
  destruct (type_is_int reg_number); [|reflexivity].
  cbn [mret py_ret].
  rewrite (endpoints_getitem_bind "registrant_checkin" "/registrant/check-in")
    by (vm_compute; reflexivity).
  rewrite api_post_eq. reflexivity.
Qed.

Lemma registrant_checkout_eq self reg_number reg_id s :
  registrant_checkout self reg_number reg_id s =
  if type_is_int reg_number
  then exchange self
         (Request "POST" (url_base +:+ "/registrant/check-out") (headers s)
            (PDict [("id", reg_number)]) ∅)
         (warned (RegistrantCheckout reg_number reg_id) s)
  else Raises AssertionError s.
Proof.
  unfold registrant_checkout. unfold mbind at 1, py_bind at 1, py_assert.
  destruct (type_is_int reg_number); [|reflexivity].
  cbn [mret py_ret]. unfold mbind at 1, py_bind at 1, print_stderr.
  rewrite (endpoints_getitem_bind "registrant_checkout" "/registrant/check-out")
    by (vm_compute; reflexivity).
  rewrite api_post_eq. reflexivity.
Qed.

(** Every call of a named method is its row of the table: rejected with
    the store untouched, or one exchange of the request of the table. *)
Lemma invoke_eq self c s :
  invoke self c s =
  if accepted c
  then exchange self (request_of c (warned c s)) (warned c s)
  else Raises (rejection c) s.
Proof.
  destruct c; cbn [invoke].
  all: first
    [ exact (registrant_checkin_eq _ _ _ _)
    | exact (registrant_checkout_eq _ _ _ _)
    | exact (literal_eq _ _ _)
    | refine (spread_eq _ _ _ _ _ _); vm_compute; reflexivity
    | refine (plain_eq _ _ _ _ _); vm_compute; reflexivity
    | refine (entity_eq _ _ _ _ (fun part => part) _ _); vm_compute; reflexivity
    | refine (entity_eq _ _ _ _ (fun part => part +:+ "/inventory") _ _);
      vm_compute; reflexivity ].
Qed.

(** ** What a call leaves behind *)

Lemma events_exchange self rq s :
  events (final_store (exchange self rq s)) = events s ++ [EvRequest rq].
Proof.
  unfold exchange.
  destruct (transport rq (upstream s)).1 as [r|e]; [destruct (json_loads (text r))|];
    reflexivity.
Qed.

Lemma headers_exchange self rq s :
  headers (final_store (exchange self rq s)) = headers s.
Proof.
  unfold exchange.
  destruct (transport rq (upstream s)).1 as [r|e]; [destruct (json_loads (text r))|];
    reflexivity.
Qed.

Lemma events_warned c s : events (warned c s) = events s ++ warning_of c.
Proof. destruct c; cbn [warned warning_of events]; rewrite ?app_nil_r; reflexivity. Qed.

Lemma headers_warned c s : headers (warned c s) = headers s.
Proof. destruct c; reflexivity. Qed.

Lemma events_invoke self c s :
  events (final_store (invoke self c s)) =
  events s ++ (if accepted c then warning_of c ++ [EvRequest (request_of c (warned c s))] else []).
Proof.
  rewrite invoke_eq. destruct (accepted c).
  - rewrite events_exchange, events_warned, <- app_assoc. reflexivity.
  - cbn [final_store]. rewrite app_nil_r. reflexivity.
Qed.

Lemma new_events_invoke self c s :
  new_events (invoke self c s) s =
  if accepted c then warning_of c ++ [EvRequest (request_of c (warned c s))] else [].
Proof. unfold new_events. rewrite events_invoke. apply drop_app_length. Qed.

Lemma headers_invoke self c s : headers (final_store (invoke self c s)) = headers s.
Proof.
  rewrite invoke_eq. destruct (accepted c); [|reflexivity].
  rewrite headers_exchange. apply headers_warned.
Qed.

Lemma issued_invoke self c s :
  issued (invoke self c s) s = if accepted c then [request_of c (warned c s)] else [].
Proof.
  unfold issued. rewrite new_events_invoke.
  destruct (accepted c); [|reflexivity]. destruct c; reflexivity.
Qed.



(** ** C1: the paths of the named methods *)

(** The three inactive methods request the path written in their body. *)
Lemma inactive_methods_request_literal_paths (self : nat) (c : call) (s : store) :
  catalog_path c = None ->
  exists p,
    p ∈ ["/search/tickets"; "/search/subscriptions"; "/search/memberships"] /\
    issued (invoke self c s) s = [Request "GET" (url_base +:+ p) (headers s) PNone ∅].
Proof.
  intros E. rewrite issued_invoke.
  destruct c; try discriminate E; eexists; (split; [|reflexivity]);
    apply list_elem_of_In; cbn; tauto.
Qed.


(** ** C2: searching orders by order number *)

Lemma search_orders_order_number_eq self X s :
  search_orders self {["orderNumber" := PStr X]} s =
  exchange self (order_number_request X s) s.
Proof.
  change (search_orders self {["orderNumber" := PStr X]} s)
    with (invoke self (SearchOrders {["orderNumber" := PStr X]}) s).
  rewrite invoke_eq. reflexivity.
Qed.

(** C2.  For every string [X], [search_orders(orderNumber=X)] makes exactly
    one call of [requests.request]: a GET of the base URL followed by
    [/search/orders], with the header dictionary of the class (which holds
    the API key), no body, and the one query parameter [orderNumber=X].
    When the library answers and the body parses, the call returns the
    parsed body as it is. *)
Theorem search_orders_by_order_number (self : nat) (X : string) (s : store) :
  new_events (search_orders self {["orderNumber" := PStr X]} s) s =
    [EvRequest (Request "GET" (url_base +:+ "/search/orders") (headers s) PNone
                        {["orderNumber" := PStr X]})] /\
  (forall key, headers s !! "apiKey" = Some key ->
     req_headers (order_number_request X s) !! "apiKey" = Some key) /\
  (forall r j,
     (transport (order_number_request X s) (upstream s)).1 = Answered r ->
     json_loads (text r) = Some j ->
     exists s', search_orders self {["orderNumber" := PStr X]} s = Returns j s').
Proof.
  rewrite search_orders_order_number_eq. split; [apply new_events_exchange|].
  split; [intros key Hk; exact Hk|].
  intros r j Hr Hj. unfold exchange. rewrite Hr, Hj. eexists. reflexivity.
Qed.

(** ** C3: check-in validates its registrant number *)

(** C3.  For every integer [n], [registrant_checkin(reg_number=n)] makes
    one request, a POST of [/registrant/check-in] under the base URL with
    the JSON body [{"id": n}]; for every value that is not an [int]
    ([None] and the booleans among them) the call raises
    [AssertionError] and leaves the store as it was, so that no request has
    been made. *)
Theorem registrant_checkin_validates (self : nat) (reg_id : pyval) (s : store) :
  (forall n : Z,
     new_events (registrant_checkin self (PInt n) reg_id s) s =
       [EvRequest (Request "POST" (url_base +:+ "/registrant/check-in") (headers s)
                           (PDict [("id", PInt n)]) ∅)]) /\
  (forall v : pyval, type_of v <> TInt ->
     registrant_checkin self v reg_id s = Raises AssertionError s /\
     issued (registrant_checkin self v reg_id s) s = []).
Proof.
  split.
  - intros n. rewrite registrant_checkin_eq. cbn [type_is_int type_of].
    apply new_events_exchange.
  - intros v Hv. rewrite registrant_checkin_eq.
    assert (type_is_int v = false) as ->.
    { unfold type_is_int. destruct v; try reflexivity. contradiction Hv. reflexivity. }
    split; [reflexivity|]. unfold issued. rewrite new_events_unchanged; reflexivity.
Qed.

(** ** C4: check-out hands back the conflict and warns *)


(** ** C5 and C6: initialization *)

Ltac run_init :=
  unfold RegFoxAPI, __init__, __load_api, open_read, json_loads_py, getitem,
    headers_setitem, mbind, py_bind, mret, py_ret, raise;
  cbn [fs events upstream headers own_last_request own_last_request_json next_object
       unreadable].

(** Initialization raises the exception of [open], of reading the file,
    of [json.load] or of the subscript, and then the header dictionary is
    as it was. *)
Lemma init_raises_only_builtin s e s' :
  RegFoxAPI s = Raises e s' ->
  (e = FileNotFoundError default_api_path \/
   (exists f, e = read_exception f) \/
   (exists f, e = json_exception f) \/
   e = KeyError "api_key" \/ e = TypeError) /\ headers s' = headers s.
Proof.
  run_init.
  destruct (fs s !! default_api_path) as [content|].
  - destruct (json_loads content) as [v|]; [|intros [= <- <-]; eauto 8].
    destruct v; try (intros [= <- <-]; auto 8).
    destruct (dict_items_get "api_key" items); [discriminate|intros [= <- <-]; auto 8].
  - destruct (unreadable s !! default_api_path); intros [= <- <-]; eauto 8.
Qed.

(** C5, as amended.  Initialization fails with [FileNotFoundError] when
    the configuration file is missing; with the exception of [open] or of
    the read when the file exists and cannot be read as text
    ([UnicodeDecodeError] for bytes that do not decode, [PermissionError],
    [IsADirectoryError] or another [OSError]); with the exception of
    [json.load] when the text does not load ([JSONDecodeError] for text
    that is not JSON, [RecursionError] for text nested too deep,
    [ValueError] for an integer that is too long); with [KeyError] when
    the content is a JSON object without the field [api_key]; and with
    [TypeError] when it is JSON but not an object.  No failure of
    initialization is a [ConfigError]: the code defines no such class. *)
Theorem init_failures (s : store) :
  (fs s !! default_api_path = None -> unreadable s !! default_api_path = None ->
   exists s', RegFoxAPI s = Raises (FileNotFoundError default_api_path) s') /\
  (forall f, fs s !! default_api_path = None -> unreadable s !! default_api_path = Some f ->
     exists s', RegFoxAPI s = Raises (read_exception f) s') /\
  (forall content, fs s !! default_api_path = Some content ->
     json_loads content = None ->
     exists s', RegFoxAPI s = Raises (json_exception (why_json_fails content)) s') /\
  (forall content items, fs s !! default_api_path = Some content ->
     json_loads content = Some (PDict items) ->
     dict_items_get "api_key" items = None ->
     exists s', RegFoxAPI s = Raises (KeyError "api_key") s') /\
  (forall content v, fs s !! default_api_path = Some content ->
     json_loads content = Some v ->
     type_of v <> TDict ->
     exists s', RegFoxAPI s = Raises TypeError s') /\
  (forall e s', RegFoxAPI s = Raises e s' -> class_name e <> "ConfigError").
Proof.
  repeat split.
  - intros E U. run_init. rewrite E, U. eexists. reflexivity.
  - intros f E U. run_init. rewrite E, U. eexists. reflexivity.
  - intros content E J. run_init. rewrite E, J. eexists. reflexivity.
  - intros content items E J K. run_init. rewrite E, J, K. eexists. reflexivity.
  - intros content v E J T. run_init. rewrite E, J.
    destruct v; try (eexists; reflexivity). contradiction T. reflexivity.
  - intros e s' E.
    destruct (init_raises_only_builtin _ _ _ E)
      as [[ -> | [ [f ->] | [ [f ->] | [ -> | -> ] ] ] ] _];
      try discriminate; destruct f; discriminate.
Qed.




(** ** C7: how a generic request ends *)

Lemma exchange_ends_as_upstream_decides self rq s :
  ends_as_upstream_decides (exchange self rq s) rq s.
Proof.
  unfold ends_as_upstream_decides, exchange.
  destruct (transport rq (upstream s)).1 as [r|e]; [|eexists; reflexivity].
  destruct (json_loads (text r)); [eexists; reflexivity|].
  destruct (why_json_fails (text r)); eexists; reflexivity.
Qed.

Lemma keywords_free_get kwargs :
  keywords_free ["self"; "endpoint"; "payload"; "method"; "url"] kwargs = true ->
  keywords_free ["self"; "endpoint"; "method"; "url"] kwargs = true /\
  kwargs !! "payload" = None.
Proof.
  unfold keywords_free. cbn [forallb].
  destruct (kwargs !! "self"), (kwargs !! "endpoint"), (kwargs !! "payload"),
    (kwargs !! "method"), (kwargs !! "url"); cbn; intros; try discriminate; auto.
Qed.

(** C7, as amended.  A generic request is [api_get] with keywords none of
    which is named [self], [endpoint], [method] or [url] (a keyword
    [payload] is sent as the body, the others as the query), or [api_post]
    with keywords none of which is named so or [payload].  When its
    transport fails it raises the exception of the [requests] library as
    it is; when the transport succeeds and [json.loads] raises on the body
    ([JSONDecodeError] for a body that is not JSON, [RecursionError] for
    one nested too deep, [ValueError] for an integer that is too long), it
    raises that exception; and otherwise it returns the parsed JSON
    body. *)
Theorem generic_request_outcomes (self : nat) (endpoint : string) (payload : pyval)
    (kwargs : gmap string pyval) (s : store) :
  (keywords_free ["self"; "endpoint"; "method"; "url"] kwargs = true ->
   ends_as_upstream_decides (api_get self endpoint kwargs s)
     (Request "GET" (url_base +:+ endpoint) (headers s)
        (default PNone (kwargs !! "payload")) (delete "payload" kwargs)) s) /\
  (keywords_free ["self"; "endpoint"; "payload"; "method"; "url"] kwargs = true ->
   ends_as_upstream_decides (api_post self endpoint payload kwargs s)
     (Request "POST" (url_base +:+ endpoint) (headers s) payload kwargs) s).
Proof.
  split.
  - intros G. rewrite api_get_eq, G. apply exchange_ends_as_upstream_decides.
  - intros F. rewrite api_post_eq, F. apply exchange_ends_as_upstream_decides.
Qed.

(** ** C8: the alternate identifier of check-in *)

(** C8.  For every integer [reg_number] and any two values of [reg_id],
    [registrant_checkin] ends in the same way from the same store: the same
    result or exception and the same final store, hence the same request
    on record and the same answer of the service. *)
Theorem registrant_checkin_ignores_reg_id (self : nat) (n : Z) (v1 v2 : pyval) (s : store) :
  registrant_checkin self (PInt n) v1 s = registrant_checkin self (PInt n) v2 s /\
  new_events (registrant_checkin self (PInt n) v1 s) s =
    [EvRequest (checkin_request n s)] /\
  new_events (registrant_checkin self (PInt n) v2 s) s =
    [EvRequest (checkin_request n s)].
Proof.
  rewrite !registrant_checkin_eq. cbn [type_is_int type_of].
  repeat split; apply new_events_exchange.
Qed.

(** ** C9: what two clients share *)

Lemma own_attributes_exchange (A B : nat) rq s :
  A <> B ->
  own_last_request (final_store (exchange A rq s)) !! B = own_last_request s !! B /\
  own_last_request_json (final_store (exchange A rq s)) !! B = own_last_request_json s !! B.
Proof.
  intros N. unfold exchange.
  destruct (transport rq (upstream s)).1 as [r|e]; [destruct (json_loads (text r))|];
    cbn [final_store remember_json remember_response recorded own_last_request
         own_last_request_json];
    rewrite ?lookup_insert_ne by exact N; split; reflexivity.
Qed.

Lemma own_attributes_warned c s :
  own_last_request (warned c s) = own_last_request s /\
  own_last_request_json (warned c s) = own_last_request_json s.
Proof. destruct c; split; reflexivity. Qed.

(** C9, as amended.  The header dictionary is one object of the class,
    changed in place: when [__load_api] runs for an instance [B] on a
    configuration with the key [key], every request that any instance [A]
    makes next carries [key].  The two debugging attributes are bound in
    the instance by each call: a call made through [A] leaves
    [last_request] and [last_request_json] as seen through another instance
    [B] as they were. *)
Theorem headers_are_shared_last_response_is_not (A B : nat) (s : store) :
  (forall content items key,
     fs s !! default_api_path = Some content ->
     json_loads content = Some (PDict items) ->
     dict_items_get "api_key" items = Some key ->
     exists s', __load_api B s = Returns tt s' /\
       forall c rq, rq ∈ issued (invoke A c s') s' -> req_headers rq !! "apiKey" = Some key) /\
  (A <> B ->
   forall c,
     last_request B (final_store (invoke A c s)) = last_request B s /\
     last_request_json B (final_store (invoke A c s)) = last_request_json B s).
Proof.
  split.
  - intros content items key E J K. run_init. rewrite E, J, K. eexists.
    split; [reflexivity|]. intros c rq Hin. rewrite issued_invoke in Hin.
    destruct (accepted c); [|inversion Hin].
    apply list_elem_of_singleton in Hin. subst rq. cbn [request_of req_headers].
    rewrite headers_warned. cbn [headers]. apply lookup_insert_eq.
  - intros N c. unfold last_request, last_request_json. rewrite invoke_eq.
    destruct (accepted c); [|split; reflexivity].
    destruct (own_attributes_exchange A B (request_of c (warned c s)) (warned c s) N)
      as [-> ->].
    destruct (own_attributes_warned c s) as [-> ->]. split; reflexivity.
Qed.

(** ** C10: the value returned is the value on record *)

Lemma exchange_returns_inv self rq s v s' :
  exchange self rq s = Returns v s' ->
  last_request_json self s' = v /\
  exists r,
    events s' = events s ++ [EvRequest rq] /\
    (transport rq (upstream s)).1 = Answered r /\
    last_request self s' = Some r /\
    json_loads (text r) = Some v.
Proof.
  intros E. split; [exact (exchange_returns_json _ _ _ _ _ E)|].
  unfold exchange in E. destruct (transport rq (upstream s)).1 as [r|e]; [|discriminate].
  destruct (json_loads (text r)) as [j|] eqn:J; [|discriminate].
  injection E as <- <-. exists r. split; [reflexivity|]. split; [reflexivity|].
  split; [|exact J].
  unfold last_request. cbn [remember_json remember_response recorded own_last_request].
  rewrite lookup_insert_eq. reflexivity.
Qed.

(** C10.  When [api_get] or [api_post] returns [v], the attribute
    [last_request_json] of the client is [v], and [v] is the parsed body of
    the response to the one request this call has made, which is the
    response on record as [last_request]. *)
Theorem api_call_returns_recorded_json (self : nat) (endpoint : string) (payload : pyval)
    (kwargs : gmap string pyval) (s : store) (v : pyval) (s' : store) :
  api_get self endpoint kwargs s = Returns v s' \/
  api_post self endpoint payload kwargs s = Returns v s' ->
  last_request_json self s' = v /\
  exists rq r,
    events s' = events s ++ [EvRequest rq] /\
    (transport rq (upstream s)).1 = Answered r /\
    last_request self s' = Some r /\
    json_loads (text r) = Some v.
Proof.
  intros [E|E].
  - rewrite api_get_eq in E. destruct (keywords_free _ kwargs); [|discriminate].
    destruct (exchange_returns_inv _ _ _ _ _ E) as [L R]. split; [exact L|].
    eexists. exact R.
  - rewrite api_post_eq in E. destruct (keywords_free _ kwargs); [|discriminate].
    destruct (exchange_returns_inv _ _ _ _ _ E) as [L R]. split; [exact L|].
    eexists. exact R.
Qed.

(** ** Further properties of the request layer *)

Lemma keywords_free_clash kwargs :
  (is_Some (kwargs !! "self") \/ is_Some (kwargs !! "endpoint") \/
   is_Some (kwargs !! "method") \/ is_Some (kwargs !! "url")) ->
  keywords_free ["self"; "endpoint"; "method"; "url"] kwargs = false.
Proof.
  unfold keywords_free. cbn [forallb].
  intros [[v E]|[[v E]|[[v E]|[v E]]]]; rewrite E;
    repeat match goal with |- context [kwargs !! ?k] => destruct (kwargs !! k) end;
    reflexivity.
Qed.

(** X1.  A keyword named [self], [endpoint], [method] or [url] cannot be
    used as a search filter: [api_get] and each of the five methods that
    forward the caller's keywords raise [TypeError] and leave the store as
    it was, so that nothing is sent. *)
Theorem keyword_clash_raises_TypeError (self : nat) (endpoint : string)
    (kwargs : gmap string pyval) (s : store) :
  (is_Some (kwargs !! "self") \/ is_Some (kwargs !! "endpoint") \/
   is_Some (kwargs !! "method") \/ is_Some (kwargs !! "url")) ->
  api_get self endpoint kwargs s = Raises TypeError s /\
  search_orders self kwargs s = Raises TypeError s /\
  search_registrants self kwargs s = Raises TypeError s /\
  search_transactions self kwargs s = Raises TypeError s /\
  search_customers self kwargs s = Raises TypeError s /\
  list_global_coupons self kwargs s = Raises TypeError s.
Proof.
  intros C. pose proof (keywords_free_clash _ C) as F. split.
  { rewrite api_get_eq, F. reflexivity. }
  repeat split.
  - change (invoke self (SearchOrders kwargs) s = Raises TypeError s).
    rewrite invoke_eq. cbn [accepted keywords]. rewrite F. reflexivity.
  - change (invoke self (SearchRegistrants kwargs) s = Raises TypeError s).
    rewrite invoke_eq. cbn [accepted keywords]. rewrite F. reflexivity.
  - change (invoke self (SearchTransactions kwargs) s = Raises TypeError s).
    rewrite invoke_eq. cbn [accepted keywords]. rewrite F. reflexivity.
  - change (invoke self (SearchCustomers kwargs) s = Raises TypeError s).
    rewrite invoke_eq. cbn [accepted keywords]. rewrite F. reflexivity.
  - change (invoke self (ListGlobalCoupons kwargs) s = Raises TypeError s).
    rewrite invoke_eq. cbn [accepted keywords]. rewrite F. reflexivity.
Qed.

(** X2.  A keyword named [payload] is not a query parameter either: it
    binds the parameter [payload] of [__api_request], so that [api_get]
    sends its value as the JSON body of the GET and leaves it out of the
    query parameters. *)
Theorem payload_keyword_becomes_the_body (self : nat) (endpoint : string)
    (kwargs : gmap string pyval) (v : pyval) (s : store) :
  keywords_free ["self"; "endpoint"; "method"; "url"] kwargs = true ->
  kwargs !! "payload" = Some v ->
  exists rq,
    new_events (api_get self endpoint kwargs s) s = [EvRequest rq] /\
    req_method rq = "GET" /\
    req_json rq = v /\
    req_params rq = delete "payload" kwargs /\
    req_params rq !! "payload" = None.
Proof.
  intros F P. rewrite api_get_eq, F, P. eexists.
  split; [apply new_events_exchange|]. cbn [req_method req_json req_params default].
  repeat split. apply lookup_delete_eq.
Qed.


Lemma frame_exchange self rq s :
  fs (final_store (exchange self rq s)) = fs s /\
  next_object (final_store (exchange self rq s)) = next_object s.
Proof.
  unfold exchange.
  destruct (transport rq (upstream s)).1 as [r|e]; [destruct (json_loads (text r))|];
    split; reflexivity.
Qed.

Lemma frame_invoke self c s :
  fs (final_store (invoke self c s)) = fs s /\
  next_object (final_store (invoke self c s)) = next_object s.
Proof.
  rewrite invoke_eq. destruct (accepted c); [|split; reflexivity].
  destruct (frame_exchange self (request_of c (warned c s)) (warned c s)) as [-> ->].
  destruct c; split; reflexivity.
Qed.

(** X4.  Whatever named methods are called, in whatever order and with
    whatever outcome: the files, the header dictionary and the objects
    allocated are as before; the events so far are kept and only added to;
    and at most one request is made per call (nothing is retried). *)
Theorem calls_frame (cs : list (nat * call)) (s : store) :
  fs (run_calls cs s) = fs s /\
  headers (run_calls cs s) = headers s /\
  next_object (run_calls cs s) = next_object s /\
  exists added,
    events (run_calls cs s) = events s ++ added /\
    length (requests_of added) <= length cs.
Proof.
  revert s. induction cs as [|[self c] cs IH]; intros s; cbn [run_calls].
  - repeat split. exists []. rewrite app_nil_r. split; [reflexivity|]. cbn. lia.
  - destruct (IH (final_store (invoke self c s))) as (F & Hd & N & added & E & L).
    destruct (frame_invoke self c s) as [F' N'].
    rewrite F, Hd, N, F', N', headers_invoke. repeat split.
    rewrite E, events_invoke, <- app_assoc. eexists. split; [reflexivity|].
    unfold requests_of in *. rewrite omap_app, length_app.
    destruct (accepted c).
    + rewrite omap_app, length_app.
      assert (length (omap (fun ev => match ev with
                                      | EvRequest rq => Some rq
                                      | EvStderr _ => None
                                      end) (warning_of c)) = 0) as -> by (destruct c; reflexivity).
      cbn [omap length]. cbn. lia.
    + cbn. lia.
Qed.

(** X5.  Making a client sends nothing and writes no file.  When it
    fails the header dictionary is as before, so that the key of an
    earlier client stays in use; when it succeeds the only change to the
    dictionary is the entry [apiKey], and the new object is one that did
    not exist. *)
Theorem init_frame (s : store) :
  (forall e s', RegFoxAPI s = Raises e s' ->
     headers s' = headers s /\ events s' = events s /\ fs s' = fs s) /\
  (forall self s', RegFoxAPI s = Returns self s' ->
     (exists key, headers s' = <["apiKey" := key]> (headers s)) /\
     events s' = events s /\ fs s' = fs s /\
     self = next_object s /\ next_object s' = S self).
Proof.
  split.
  - intros e s'. run_init.
    destruct (fs s !! default_api_path) as [content|];
      [|destruct (unreadable s !! default_api_path); intros [= <- <-]; auto].
    destruct (json_loads content) as [v|]; [|intros [= <- <-]; auto].
    destruct v; try (intros [= <- <-]; auto).
    destruct (dict_items_get "api_key" items); [discriminate|intros [= <- <-]; auto].
  - intros self s'. run_init.
    destruct (fs s !! default_api_path) as [content|];
      [|destruct (unreadable s !! default_api_path); discriminate].
    destruct (json_loads content) as [v|]; [|discriminate].
    destruct v; try discriminate.
    destruct (dict_items_get "api_key" items) as [key|]; [|discriminate].
    intros [= <- <-]. cbn. repeat split. exists key. reflexivity.
Qed.

(** ** Further properties of the named methods *)

(** X6.  The four [list_*] methods forward the form id as one query
    parameter of a single GET, and not under the same name: [form_id] for
    orders and registrants, [formId] for transactions and customers.  The
    default [None] is forwarded like any other value. *)
Theorem list_methods_forward_the_form_id (self : nat) (form_id : pyval) (s : store) :
  issued (list_orders self form_id s) s =
    [Request "GET" (url_base +:+ "/search/orders") (headers s) PNone
             {["form_id" := form_id]}] /\
  issued (list_registrants self form_id s) s =
    [Request "GET" (url_base +:+ "/search/registrants") (headers s) PNone
             {["form_id" := form_id]}] /\
  issued (list_transactions self form_id s) s =
    [Request "GET" (url_base +:+ "/search/transactions") (headers s) PNone
             {["formId" := form_id]}] /\
  issued (list_customers self form_id s) s =
    [Request "GET" (url_base +:+ "/search/customers") (headers s) PNone
             {["formId" := form_id]}].
Proof.
  change (list_orders self form_id s) with (invoke self (ListOrders form_id) s).
  change (list_registrants self form_id s) with (invoke self (ListRegistrants form_id) s).
  change (list_transactions self form_id s) with (invoke self (ListTransactions form_id) s).
  change (list_customers self form_id s) with (invoke self (ListCustomers form_id) s).
  rewrite !issued_invoke. repeat split; reflexivity.
Qed.

(** X7.  Each search by one field is a single GET of the search endpoint
    with that field as its only query parameter: [orderNumber] for
    [search_orders_number] and [search_transactions_order_number],
    [orderId], [customerId] and [email] for the other three. *)
Theorem search_by_field_methods (self : nat) (x : pyval) (s : store) :
  issued (search_orders_number self x s) s =
    [Request "GET" (url_base +:+ "/search/orders") (headers s) PNone
             {["orderNumber" := x]}] /\
  issued (search_transactions_order_id self x s) s =
    [Request "GET" (url_base +:+ "/search/transactions") (headers s) PNone
             {["orderId" := x]}] /\
  issued (search_transactions_order_number self x s) s =
    [Request "GET" (url_base +:+ "/search/transactions") (headers s) PNone
             {["orderNumber" := x]}] /\
  issued (search_transactions_customer_id self x s) s =
    [Request "GET" (url_base +:+ "/search/transactions") (headers s) PNone
             {["customerId" := x]}] /\
  issued (search_customers_email self x s) s =
    [Request "GET" (url_base +:+ "/search/customers") (headers s) PNone
             {["email" := x]}].
Proof.
  change (search_orders_number self x s) with (invoke self (SearchOrdersNumber x) s).
  change (search_transactions_order_id self x s)
    with (invoke self (SearchTransactionsOrderId x) s).
  change (search_transactions_order_number self x s)
    with (invoke self (SearchTransactionsOrderNumber x) s).
  change (search_transactions_customer_id self x s)
    with (invoke self (SearchTransactionsCustomerId x) s).
  change (search_customers_email self x s) with (invoke self (SearchCustomersEmail x) s).
  rewrite !issued_invoke. repeat split; reflexivity.
Qed.

Lemma to_int_proper (n : Z) : Z.to_int n <> Decimal.Pos Decimal.Nil /\
                              Z.to_int n <> Decimal.Neg Decimal.Nil.
Proof.
  destruct n as [|p|p]; cbn; split; try discriminate;
    intros [= E]; exact (DecimalPos.Unsigned.to_uint_nonnil p E).
Qed.

Lemma decimal_round_trip (n : Z) :
  option_map Z.of_int (NilZero.int_of_string (decimal n)) = Some n.
Proof.
  unfold decimal. destruct (to_int_proper n) as [P N].
  rewrite (NilZero.isi _ P N). cbn [option_map]. f_equal. apply DecimalZ.of_to.
Qed.

Lemma decimal_inj (n m : Z) : decimal n = decimal m -> n = m.
Proof.
  intros E. pose proof (decimal_round_trip n) as R.
  rewrite E, decimal_round_trip in R. congruence.
Qed.

Lemma string_length_app (a b : string) :
  String.length (a +:+ b) = String.length a + String.length b.
Proof.
  induction a as [|c a IH]; [reflexivity|].
  change (S (String.length (a +:+ b)) = S (String.length a + String.length b)).
  rewrite IH. reflexivity.
Qed.

Lemma string_app_cancel_r (x y t : string) : x +:+ t = y +:+ t -> x = y.
Proof.
  revert y. induction x as [|c x IH]; intros [|d y] E.
  - reflexivity.
  - apply (f_equal String.length) in E. rewrite !string_length_app in E.
    cbn [String.length] in E. lia.
  - apply (f_equal String.length) in E. rewrite !string_length_app in E.
    cbn [String.length] in E. lia.
  - change (String c (x +:+ t) = String d (y +:+ t)) in E.
    injection E as -> E. f_equal. exact (IH _ E).
Qed.

Lemma text_of_int (n : Z) :
  within_digit_limit n = true ->
  py_str (PInt n) = inl (decimal n) /\ formats (PInt n) = true /\
  text_of (PInt n) = decimal n.
Proof. unfold formats, text_of. cbn [py_str]. intros ->. repeat split. Qed.

Lemma entity_path_inj (f : pyval -> call) (n m : Z) :
  f ∈ entity_methods ->
  within_digit_limit n = true -> within_digit_limit m = true ->
  accepted (f (PInt n)) = true /\ accepted (f (PInt m)) = true /\
  (path_of (f (PInt n)) = path_of (f (PInt m)) -> n = m).
Proof.
  intros Hf Ln Lm.
  destruct (text_of_int n Ln) as (_ & Fn & Tn), (text_of_int m Lm) as (_ & Fm & Tm).
  apply list_elem_of_In in Hf. cbn in Hf.
  repeat (destruct Hf as [<-|Hf];
          [cbn [accepted path_of catalog_path entity_suffix default from_option id];
           rewrite Tn, Tm; split; [exact Fn|]; split; [exact Fm|];
           intros E; apply decimal_inj;
           do 2 apply (inj (String.app _)) in E;
           first [exact E | exact (string_app_cancel_r _ _ _ E)] |]).
  contradiction.
Qed.

(** X8.  An integer id within the digit limit of the interpreter is
    written into the path in decimal, and reading the decimal back gives
    the integer; so each entity-specific method sends one request for
    each of two different ids, and to different URLs. *)
Theorem integer_ids_give_distinct_urls (self : nat) (f : pyval -> call) (n m : Z)
    (s : store) :
  f ∈ entity_methods ->
  within_digit_limit n = true -> within_digit_limit m = true ->
  n <> m ->
  py_str (PInt n) = inl (decimal n) /\
  option_map Z.of_int (NilZero.int_of_string (decimal n)) = Some n /\
  exists a b,
    issued (invoke self (f (PInt n)) s) s = [a] /\
    issued (invoke self (f (PInt m)) s) s = [b] /\
    req_url a <> req_url b.
Proof.
  intros Hf Ln Lm D.
  split; [exact (proj1 (text_of_int n Ln))|]. split; [apply decimal_round_trip|].
  destruct (entity_path_inj f n m Hf Ln Lm) as (An & Am & Inj).
  rewrite !issued_invoke, An, Am. do 2 eexists. split; [reflexivity|].
  split; [reflexivity|]. cbn [request_of req_url]. intros E.
  apply D, Inj. exact (inj (String.app url_base) _ _ E).
Qed.

(** X14.  An integer id with more digits than the interpreter turns into
    a string makes every entity-specific method raise [ValueError] while
    it formats the path: the store is as it was, and no request is
    made. *)
Theorem oversized_integer_id_raises_ValueError (self : nat) (f : pyval -> call) (n : Z)
    (s : store) :
  f ∈ entity_methods ->
  within_digit_limit n = false ->
  invoke self (f (PInt n)) s = Raises ValueError s /\
  issued (invoke self (f (PInt n)) s) s = [].
Proof.
  intros Hf L. rewrite issued_invoke, invoke_eq.
  apply list_elem_of_In in Hf. cbn in Hf.
  repeat (destruct Hf as [<-|Hf];
          [cbn [accepted rejection]; unfold formats; cbn [py_str]; rewrite L;
           split; reflexivity |]).
  contradiction.
Qed.


(** X10.  The private [__api_request] hands back the response object
    itself, not its parsed body: when the library answers [r] and the text
    of [r] parses to [j], it returns [r], and the client then holds [r] as
    [last_request] and [j] as [last_request_json]. *)
Theorem api_request_returns_the_raw_response (self : nat) (method url : string)
    (payload : option pyval) (kwargs : gmap string pyval) (s : store)
    (r : response) (j : pyval) :
  keywords_free ["self"; "method"; "url"] kwargs = true ->
  kwargs !! "payload" = None ->
  (transport (Request method url (headers s) (default PNone payload) kwargs) (upstream s)).1
    = Answered r ->
  json_loads (text r) = Some j ->
  exists s',
    __api_request self method url payload kwargs s = Returns r s' /\
    last_request self s' = Some r /\
    last_request_json self s' = j /\
    events s' =
      events s ++ [EvRequest (Request method url (headers s) (default PNone payload) kwargs)].
Proof.
  intros F P T J. rewrite (api_request_eq self method url payload kwargs s F (or_intror P)).
  rewrite P, (delete_id _ _ P).
  assert (match payload with Some p => p | None => default PNone (@None pyval) end
          = default PNone payload) as -> by (destruct payload; reflexivity).
  unfold exchange. rewrite T, J. eexists. split; [reflexivity|].
  unfold last_request, last_request_json.
  cbn [remember_json remember_response recorded own_last_request own_last_request_json events].
  rewrite !lookup_insert_eq. repeat split.
Qed.


(** ** Further properties of whole programs *)

Lemma construct_frame s :
  events (final_store (RegFoxAPI s)) = events s /\
  (headers (final_store (RegFoxAPI s)) = headers s \/
   exists key, headers (final_store (RegFoxAPI s)) = <["apiKey" := key]> (headers s)).
Proof.
  run_init.
  destruct (fs s !! default_api_path) as [content|];
    [|destruct (unreadable s !! default_api_path); (split; [reflexivity|left; reflexivity])].
  destruct (json_loads content) as [v|]; [|split; [reflexivity|left; reflexivity]].
  destruct v; try (split; [reflexivity|left; reflexivity]).
  destruct (dict_items_get "api_key" items) as [key|];
    [|split; [reflexivity|left; reflexivity]].
  split; [reflexivity|right; exists key; reflexivity].
Qed.

Lemma run_actions_invariant acts s :
  dom (headers s) = {["apiKey"]} ->
  (forall rq, rq ∈ requests_of (events s) -> well_sent rq) ->
  forall rq, rq ∈ requests_of (events (run_actions acts s)) -> well_sent rq.
Proof.
  revert s. induction acts as [|a acts IH]; intros s D P; cbn [run_actions]; [exact P|].
  apply IH; destruct a as [|self c|path content]; cbn [act].
  - destruct (construct_frame s) as [_ [-> |[key ->]]]; [exact D|].
    rewrite dom_insert_L, D. set_solver.
  - rewrite headers_invoke. exact D.
  - exact D.
  - destruct (construct_frame s) as [-> _]. exact P.
  - rewrite events_invoke. intros rq Hin. unfold requests_of in Hin.
    rewrite omap_app in Hin. apply elem_of_app in Hin as [Hin|Hin]; [exact (P rq Hin)|].
    destruct (accepted c); [|inversion Hin].
    rewrite omap_app in Hin. apply elem_of_app in Hin as [Hin|Hin].
    + destruct c; inversion Hin; subst;
        match goal with Hx : _ ∈ [] |- _ => inversion Hx end.
    + cbn in Hin. apply list_elem_of_singleton in Hin. subst rq.
      unfold well_sent. cbn [request_of req_headers req_url req_method].
      rewrite headers_warned. split; [exact D|]. split; [eexists; reflexivity|].
      destruct c; cbn [verb]; auto.
  - exact P.
Qed.

(** X12.  Whatever a program does with the client from the moment the
    class exists (making clients, calling named methods through any
    object, with the configuration file replaced at any time), every
    request it ever makes has [apiKey] as its only header, a URL under the
    base URL, and the verb GET or POST. *)
Theorem every_request_is_well_formed (acts : list action) (files : gmap string string)
    (u : Upstream) (rq : request) :
  rq ∈ requests_of (events (run_actions acts (boot files u))) ->
  dom (req_headers rq) = {["apiKey"]} /\
  (exists path, req_url rq = url_base +:+ path) /\
  (req_method rq = "GET" \/ req_method rq = "POST").
Proof.
  apply (run_actions_invariant acts (boot files u)).
  - cbn [boot headers]. unfold initial_headers. apply dom_singleton_L.
  - intros rq' Hin. inversion Hin.
Qed.

Lemma getitem_keeps_store v k s : final_store (getitem v k s) = s.
Proof.
  unfold getitem. destruct v; try reflexivity.
  destruct (dict_items_get k items); reflexivity.
Qed.

(** X13.  [test_specific_reg] looks the registrant up first.  When the
    answer is a JSON object without [totalResults] (an error object of the
    service, say), the test raises [KeyError] and the search for the order
    is never made; when the object has the field, the search for the order
    follows, and these two requests are all the test adds to the events
    however the second one ends. *)
Theorem test_specific_reg_requests (regfox : nat) (s : store) (r : response)
    (items : list (string * pyval)) :
  (transport (Request "GET" (url_base +:+ "/search/registrants/1230469") (headers s) PNone ∅)
             (upstream s)).1 = Answered r ->
  json_loads (text r) = Some (PDict items) ->
  (dict_items_get "totalResults" items = None ->
   exists s',
     test_specific_reg regfox s = Raises (KeyError "totalResults") s' /\
     events s' =
       events s ++
       [EvRequest (Request "GET" (url_base +:+ "/search/registrants/1230469") (headers s)
                           PNone ∅)]) /\
  (forall total, dict_items_get "totalResults" items = Some total ->
     new_events (test_specific_reg regfox s) s =
       [EvRequest (Request "GET" (url_base +:+ "/search/registrants/1230469") (headers s)
                           PNone ∅);
        EvRequest (Request "GET" (url_base +:+ "/search/orders") (headers s) PNone
                           {["orderNumber" := PStr "EXAMPLEEVENT202J91234X"]})]).
Proof.
  intros T J.
  assert (search_registrants_number regfox (PStr "1230469") s =
          Returns (PDict items)
            (remember_json regfox (PDict items)
               (remember_response regfox r
                  (recorded (Request "GET" (url_base +:+ "/search/registrants/1230469")
                                     (headers s) PNone ∅) s)))) as First.
  { change (search_registrants_number regfox (PStr "1230469") s)
      with (invoke regfox (SearchRegistrantsNumber (PStr "1230469")) s).
    rewrite invoke_eq.
    change (accepted (SearchRegistrantsNumber (PStr "1230469"))) with true. cbv iota.
    change (warned (SearchRegistrantsNumber (PStr "1230469")) s) with s.
    change (request_of (SearchRegistrantsNumber (PStr "1230469")) s)
      with (Request "GET" (url_base +:+ "/search/registrants/1230469") (headers s) PNone ∅).
    unfold exchange. rewrite T, J. reflexivity. }
  unfold test_specific_reg. cbv zeta.
  cbv beta iota delta [mbind py_bind mret py_ret raise]. rewrite First.
  cbn [getitem]. split.
  - intros K. rewrite K. cbv beta iota delta [raise]. eexists. split; reflexivity.
  - intros total K. rewrite K. cbv beta iota delta [mret py_ret].
    rewrite search_orders_order_number_eq.
    match goal with |- context [exchange regfox ?rq ?s1] =>
      pose proof (events_exchange regfox rq s1) as Ev;
      destruct (exchange regfox rq s1) as [orders s2|e s2] end.
    + cbn [final_store] in Ev. unfold new_events.
      match goal with |- context [final_store ?o] =>
        assert (final_store o = s2) as ->
      end.
      { pose proof (getitem_keeps_store orders "totalResults" s2) as G.
        destruct (getitem orders "totalResults" s2); cbn [final_store] in G; subst;
          reflexivity. }
      rewrite Ev.
      cbn [remember_json remember_response recorded events order_number_request headers].
      rewrite <- app_assoc. apply drop_app_length.
    + cbn [final_store] in Ev. unfold new_events. cbn [final_store]. rewrite Ev.
      cbn [remember_json remember_response recorded events order_number_request headers].
      rewrite <- app_assoc. apply drop_app_length.
Qed.

End Contract.

(** ** The contract on the example environment *)


Lemma search_orders_fixture_example :
  exists s',
    @search_orders example_env 0 {["orderNumber" := PStr "EXAMPLEEVENT202J91234X"]} ready =
    Returns orders_json s'.
Proof.
  destruct (@search_orders_by_order_number example_env 0 "EXAMPLEEVENT202J91234X" ready)
    as (_ & _ & Hret).
  apply (Hret (Response 200 orders_text) orders_json); vm_compute; reflexivity.
Defined.

Lemma registrant_checkin_default_example :
  type_of PNone <> TInt /\
  @registrant_checkin example_env 0 PNone PNone ready = Raises AssertionError ready.
Proof.
  assert (type_of PNone <> TInt) as N by discriminate.
  split; [exact N|].
  destruct (@registrant_checkin_validates example_env 0 PNone ready) as [_ Hbad].
  exact (proj1 (Hbad PNone N)).
Defined.


(** C5, as stated, fails: without a configuration file initialization
    raises [FileNotFoundError], which is not [ConfigError]. *)
Lemma missing_config_is_not_ConfigError :
  exists s',
    @RegFoxAPI example_env unconfigured = Raises (FileNotFoundError "config.json") s' /\
    class_name (FileNotFoundError "config.json") <> "ConfigError".
Proof. eexists. split; [vm_compute; reflexivity|discriminate]. Qed.

Lemma init_failures_example :
  (exists s', @RegFoxAPI example_env unconfigured = Raises (FileNotFoundError "config.json") s') /\
  (exists s', @RegFoxAPI example_env undecodable = Raises UnicodeDecodeError s') /\
  (exists s', @RegFoxAPI example_env malformed = Raises JSONDecodeError s') /\
  (exists s', @RegFoxAPI example_env keyless = Raises (KeyError "api_key") s') /\
  (exists s', @RegFoxAPI example_env listed = Raises TypeError s').
Proof.
  split; [|split; [|split; [|split]]].
  - apply (proj1 (@init_failures example_env unconfigured)); vm_compute; reflexivity.
  - apply (proj1 (proj2 (@init_failures example_env undecodable)) NotDecodable);
      vm_compute; reflexivity.
  - apply (proj1 (proj2 (proj2 (@init_failures example_env malformed)))
             "api_key = 0123abcd"); vm_compute; reflexivity.
  - apply (proj1 (proj2 (proj2 (proj2 (@init_failures example_env keyless))))
             keyless_config_text [("name", PStr "regfox")]); vm_compute; reflexivity.
  - apply (proj1 (proj2 (proj2 (proj2 (proj2 (@init_failures example_env listed)))))
             "[1]" (PList [PInt 1])); [vm_compute; reflexivity..|discriminate].
Defined.


(** C7, as stated, fails: when the service cannot be reached the request
    raises the [ConnectionError] of the [requests] library, not a
    [RequestError], and a body that is not JSON raises [JSONDecodeError],
    not a [ResponseParseError]. *)
Lemma request_failures_keep_their_class :
  (exists s',
     @api_get example_env 0 "/ping" ∅ unreachable =
       Raises (RequestsException "ConnectionError") s' /\
     class_name (RequestsException "ConnectionError") <> "RequestError") /\
  (exists s',
     @api_get example_env 0 "/search/tickets" ∅ ready = Raises JSONDecodeError s' /\
     class_name JSONDecodeError <> "ResponseParseError").
Proof.
  split; eexists; (split; [vm_compute; reflexivity|discriminate]).
Qed.

Lemma generic_request_example :
  (exists s', @api_get example_env 0 "/ping" ∅ ready = Returns pong_json s') /\
  (exists s', @api_get example_env 0 "/search/tickets" ∅ ready = Raises JSONDecodeError s') /\
  (exists s', @api_get example_env 0 "/ping" ∅ unreachable =
                Raises (RequestsException "ConnectionError") s') /\
  (exists s', @api_post example_env 0 "/registrant/check-in" (PDict [("id", PInt 1230469)]) ∅
                checked = Returns conflict_json s').
Proof.
  split; [|split; [|split]].
  - exact (proj1 (@generic_request_outcomes example_env 0 "/ping" PNone ∅ ready) eq_refl).
  - exact (proj1 (@generic_request_outcomes example_env 0 "/search/tickets" PNone ∅ ready)
             eq_refl).
  - exact (proj1 (@generic_request_outcomes example_env 0 "/ping" PNone ∅ unreachable)
             eq_refl).
  - exact (proj2 (@generic_request_outcomes example_env 0 "/registrant/check-in"
                    (PDict [("id", PInt 1230469)]) ∅ checked) eq_refl).
Defined.

(** C9, as stated, fails: after a call through the first client, the second
    client still sees the class values of the two debugging attributes. *)
Lemma call_through_one_client_is_not_seen_through_the_other :
  exists s1 s2 s3,
    @RegFoxAPI example_env configured = Returns 0 s1 /\
    @RegFoxAPI example_env s1 = Returns 1 s2 /\
    @ping example_env 0 s2 = Returns pong_json s3 /\
    last_request_json 0 s3 = pong_json /\
    last_request 0 s3 = Some (Response 200 pong_text) /\
    last_request_json 1 s3 = PDict [] /\
    last_request 1 s3 = None.
Proof.
  do 3 eexists. split; [vm_compute; reflexivity|].
  split; [vm_compute; reflexivity|].
  split; [vm_compute; reflexivity|].
  repeat split; vm_compute; reflexivity.
Qed.

Lemma two_clients_example :
  (exists s',
     @__load_api example_env 1 reconfigured = Returns tt s' /\
     forall rq, rq ∈ issued (@invoke example_env 0 Ping s') s' ->
       req_headers rq !! "apiKey" = Some (PStr "ffff9999")) /\
  last_request_json 1 (final_store (@invoke example_env 0 Ping ready)) =
    last_request_json 1 ready.
Proof.
  destruct (@headers_are_shared_last_response_is_not example_env 0 1 reconfigured)
    as [Hshared _].
  destruct (@headers_are_shared_last_response_is_not example_env 0 1 ready)
    as [_ Hown].
  split.
  - destruct (Hshared other_config_text [("api_key", PStr "ffff9999")] (PStr "ffff9999"))
      as (s' & Hload & Hreq); [vm_compute; reflexivity..|].
    exists s'. split; [exact Hload|]. intros rq. apply Hreq.
  - apply Hown. discriminate.
Defined.

Lemma api_get_recorded_example :
  exists s',
    @api_get example_env 0 "/ping" ∅ ready = Returns pong_json s' /\
    last_request_json 0 s' = pong_json.
Proof.
  eexists. split; [vm_compute; reflexivity|].
  eapply (@api_call_returns_recorded_json example_env 0 "/ping" PNone ∅ ready).
  left. vm_compute. reflexivity.
Defined.

(** ** The further properties on the example environment *)

Lemma keyword_clash_example :
  @search_orders example_env 0 {["url" := PStr "https://example.com"]} ready =
  Raises TypeError ready.
Proof.
  refine (proj1 (proj2 (@keyword_clash_raises_TypeError example_env 0 "/search/orders"
                          {["url" := PStr "https://example.com"]} ready _))).
  right. right. right. exists (PStr "https://example.com"). vm_compute. reflexivity.
Defined.

Lemma payload_keyword_example :
  exists rq,
    new_events (@api_get example_env 0 "/search/orders"
                  (<["payload" := PStr "x"]> {["status" := PStr "canceled"]}) ready) ready
      = [EvRequest rq] /\
    req_method rq = "GET" /\
    req_json rq = PStr "x" /\
    req_params rq = delete "payload" (<["payload" := PStr "x"]> {["status" := PStr "canceled"]}) /\
    req_params rq !! "payload" = None.
Proof.
  apply (@payload_keyword_becomes_the_body example_env 0 "/search/orders"
           (<["payload" := PStr "x"]> {["status" := PStr "canceled"]}) (PStr "x") ready);
    vm_compute; reflexivity.
Defined.


Lemma init_frame_example :
  (headers (final_store (@RegFoxAPI example_env unconfigured)) = headers unconfigured /\
   events (final_store (@RegFoxAPI example_env unconfigured)) = events unconfigured /\
   fs (final_store (@RegFoxAPI example_env unconfigured)) = fs unconfigured) /\
  ((exists key, headers ready = <["apiKey" := key]> (headers configured)) /\
   events ready = events configured /\ fs ready = fs configured /\
   0 = next_object configured /\ next_object ready = 1).
Proof.
  split.
  - apply (proj1 (@init_frame example_env unconfigured) (FileNotFoundError "config.json")).
    vm_compute. reflexivity.
  - apply (proj2 (@init_frame example_env configured) 0 ready). vm_compute. reflexivity.
Defined.

Lemma integer_ids_example :
  exists a b,
    issued (@invoke example_env 0 (SearchInventory (PInt 223369)) ready) ready = [a] /\
    issued (@invoke example_env 0 (SearchInventory (PInt 123410)) ready) ready = [b] /\
    req_url a <> req_url b.
Proof.
  refine (proj2 (proj2 (@integer_ids_give_distinct_urls example_env 0 SearchInventory
                          223369 123410 ready _ eq_refl eq_refl _))).
  - apply list_elem_of_In. vm_compute. tauto.
  - discriminate.
Defined.

Lemma oversized_integer_id_example :
  @invoke example_env 0 (SearchOrdersId (PInt (10 ^ 4300))) ready = Raises ValueError ready /\
  issued (@invoke example_env 0 (SearchOrdersId (PInt (10 ^ 4300))) ready) ready = [].
Proof.
  refine (@oversized_integer_id_raises_ValueError example_env 0 SearchOrdersId (10 ^ 4300)
            ready _ _).
  - apply list_elem_of_In. left. reflexivity.
  - vm_compute. reflexivity.
Defined.


Lemma api_request_example :
  exists s',
    @__api_request example_env 0 "GET" (url_base +:+ "/ping") None ∅ ready =
      Returns (Response 200 pong_text) s' /\
    last_request 0 s' = Some (Response 200 pong_text) /\
    last_request_json 0 s' = pong_json /\
    events s' =
      events ready ++
      [EvRequest (Request "GET" (url_base +:+ "/ping") (headers ready) (default PNone None) ∅)].
Proof.
  apply (@api_request_returns_the_raw_response example_env 0 "GET" (url_base +:+ "/ping")
           None ∅ ready (Response 200 pong_text) pong_json); vm_compute; reflexivity.
Defined.


Lemma every_request_example :
  dom (req_headers (Request "POST" (url_base +:+ "/registrant/check-in")
                            {["apiKey" := PStr "ffff9999"]}
                            (PDict [("id", PInt 1230469)]) ∅)) = {["apiKey"]} /\
  (exists path, url_base +:+ "/registrant/check-in" = url_base +:+ path) /\
  ("POST" = "GET" \/ "POST" = "POST").
Proof.
  apply (@every_request_is_well_formed example_env example_program
           {["config.json" := config_text]} (Service true [])
           (Request "POST" (url_base +:+ "/registrant/check-in")
                    {["apiKey" := PStr "ffff9999"]} (PDict [("id", PInt 1230469)]) ∅)).
  vm_compute. right. left.
Defined.

Lemma test_specific_reg_example :
  (exists s',
     @test_specific_reg (constant_env conflict_text) 0
        (@boot (constant_env conflict_text) ∅ tt) = Raises (KeyError "totalResults") s' /\
     events s' =
       [EvRequest (Request "GET" (url_base +:+ "/search/registrants/1230469")
                           initial_headers PNone ∅)]) /\
  new_events (@test_specific_reg (constant_env orders_text) 0
                (@boot (constant_env orders_text) ∅ tt))
             (@boot (constant_env orders_text) ∅ tt) =
    [EvRequest (Request "GET" (url_base +:+ "/search/registrants/1230469")
                        initial_headers PNone ∅);
     EvRequest (Request "GET" (url_base +:+ "/search/orders") initial_headers PNone
                        {["orderNumber" := PStr "EXAMPLEEVENT202J91234X"]})].
Proof.
  split.
  - refine (proj1 (@test_specific_reg_requests (constant_env conflict_text) 0
                     (@boot (constant_env conflict_text) ∅ tt) (Response 200 conflict_text)
                     [("responseCode", PInt 500);
                      ("error", PDict [("code", PInt 8500);
                                       ("description", PStr "all ready checked in")])]
                     _ _) _); vm_compute; reflexivity.
  - refine (proj2 (@test_specific_reg_requests (constant_env orders_text) 0
                     (@boot (constant_env orders_text) ∅ tt) (Response 200 orders_text)
                     [("responseCode", PInt 200);
                      ("data", PList [PDict [("id", PInt 1234567);
                                             ("orderNumber", PStr "EXAMPLEEVENT202J91234X")]]);
                      ("totalResults", PInt 1)]
                     _ _) (PInt 1) _); vm_compute; reflexivity.
Defined.
